(** * Vision model wrappers: a shallow embedding of
      [ml_wrappers/model/image_model_wrapper.py]

    The Python module adapts image models of several frameworks to one
    scikit-learn-like contract, [predict] and [predict_proba], and offers a
    factory, [_wrap_image_model], that picks the adapter.

    Conventions of the embedding:
    - Python code that may raise is a computation in the error monad
      [result := sum exn] of ExtLib; [inr v] is a normal return and
      [inl e] an exception that reaches the caller.
    - numpy arrays are a dtype tag, a shape and the row-major list of their
      entries.  Floating point numbers are idealised as rationals: the
      properties stated below are about structure (which entries end up
      where), not about rounding.
    - calls into the wrapped native model are fields of a record; they are
      functions of their argument (a model in evaluation mode). *)

From Stdlib Require Import String Ascii Bool Arith ZArith QArith Lia List.
From ExtLib Require Import Structures.Monad Structures.MonadExc.
From ExtLib Require Import Data.Monads.EitherMonad.
Import ListNotations.
Import MonadNotation.

Local Close Scope Q_scope.
Local Open Scope string_scope.
Local Open Scope nat_scope.
Local Open Scope list_scope.
Local Open Scope monad_scope.

Set Implicit Arguments.

(* ===================================================================== *)
(** * Python values and exceptions                                        *)
(* ===================================================================== *)

Module Py.

(** The exception classes that the module or the library calls it makes
    can raise. *)
Inductive exn : Type :=
| NameError
| AttributeError
| IndexError
| KeyError
| TypeError
| ValueError
| AxisError
| RuntimeError
| OtherError (msg : string).

Definition result : Type -> Type := sum exn.

(** [for x in l: out.append(f(x))]: the elements are visited in order and
    the first exception ends the loop. *)
Fixpoint for_append {A B : Type} (f : A -> result B) (l : list A)
  : result (list B) :=
  match l with
  | [] => ret []
  | x :: xs =>
      y <- f x ;;
      ys <- for_append f xs ;;
      ret (y :: ys)
  end.

(** [t[i]] on a tuple or list, for a non-negative [i]. *)
Definition getitem {A : Type} (t : list A) (i : nat) : result A :=
  match nth_error t i with
  | Some v => ret v
  | None => raise IndexError
  end.

(** [t[-1]] on a list. *)
Definition getitem_last {A : Type} (t : list A) : result A :=
  match rev t with
  | v :: _ => ret v
  | [] => raise IndexError
  end.

(** The value of a keyword argument with a default; [None] stands for a
    call that leaves the argument out. *)
Definition or_default {A : Type} (arg : option A) (default : A) : A :=
  match arg with
  | Some v => v
  | None => default
  end.

(** [s.endswith(suffix)]. *)
Definition endswith (s suffix : string) : bool :=
  let n := String.length s in
  let k := String.length suffix in
  (k <=? n) && String.eqb (substring (n - k) k s) suffix.

End Py.
Import Py.

(* ===================================================================== *)
(** * numpy arrays                                                        *)
(* ===================================================================== *)

Module np.

(** [DObject] is numpy's [object] dtype, the dtype of a column whose cells
    hold arrays or lists. *)
Inductive dtype : Type := DBool | DInt | DFloat | DObject.

Definition dtype_eqb (a b : dtype) : bool :=
  match a, b with
  | DBool, DBool | DInt, DInt | DFloat, DFloat | DObject, DObject => true
  | _, _ => false
  end.

(** Type promotion of [np.array] over entries of mixed dtypes. *)
Definition promote (a b : dtype) : dtype :=
  match a, b with
  | DObject, _ | _, DObject => DObject
  | DFloat, _ | _, DFloat => DFloat
  | DInt, _ | _, DInt => DInt
  | DBool, DBool => DBool
  end.

(** An array: [True] and [False] are stored as 1 and 0. *)
Record ndarray : Type := {
  dtype_of : dtype;
  shape : list nat;
  data : list Q
}.

(** Number of entries of an array of shape [s]. *)
Definition size_of (s : list nat) : nat := fold_right Nat.mul 1 s.

Definition well_formed (a : ndarray) : Prop :=
  length (data a) = size_of (shape a).

Definition shape_eqb (s t : list nat) : bool :=
  (length s =? length t) && forallb (fun p => fst p =? snd p) (combine s t).

(** [len(a.shape)] *)
Definition ndim (a : ndarray) : nat := length (shape a).

(** [len(a)] *)
Definition len (a : ndarray) : result nat :=
  match shape a with
  | [] => raise TypeError
  | n :: _ => ret n
  end.

(** Row [i] of an array whose rows have shape [s]. *)
Definition row (a : ndarray) (s : list nat) (i : nat) : ndarray :=
  {| dtype_of := dtype_of a;
     shape := s;
     data := firstn (size_of s) (skipn (i * size_of s) (data a)) |}.

(** [a[i]] *)
Definition getitem (a : ndarray) (i : nat) : result ndarray :=
  match shape a with
  | [] => raise IndexError
  | n :: s => if i <? n then ret (row a s i) else raise IndexError
  end.

(** [for row in a]: the rows along the first axis, in order. *)
Definition iter (a : ndarray) : result (list ndarray) :=
  match shape a with
  | [] => raise TypeError
  | n :: s => ret (map (row a s) (seq 0 n))
  end.

(** [np.array(l)] for a Python list [l] of arrays.  Arrays of one shape
    [s] are stacked to shape [len(l) :: s]; the empty list gives the
    empty float vector; shapes that differ raise [ValueError] (numpy 1.24
    and later). *)
Definition array (l : list ndarray) : result ndarray :=
  match l with
  | [] => ret {| dtype_of := DFloat; shape := [0]; data := [] |}
  | x :: xs =>
      if forallb (fun y => shape_eqb (shape y) (shape x)) xs then
        ret {| dtype_of := fold_left promote (map dtype_of xs) (dtype_of x);
               shape := length l :: shape x;
               data := concat (map data l) |}
      else raise ValueError
  end.

(** [np.stack(l)] along a new first axis: as [np.array], but the empty
    list is refused. *)
Definition stack (l : list ndarray) : result ndarray :=
  match l with
  | [] => raise ValueError
  | _ :: _ => array l
  end.

(** [a.flatten()] *)
Definition flatten (a : ndarray) : ndarray :=
  {| dtype_of := dtype_of a;
     shape := [size_of (shape a)];
     data := data a |}.

(** [a.reshape(1)] *)
Definition reshape1 (a : ndarray) : result ndarray :=
  if size_of (shape a) =? 1
  then ret {| dtype_of := dtype_of a; shape := [1]; data := data a |}
  else raise ValueError.

(** [a.astype(int)]; entries of a boolean array are already 0 or 1, the
    entries of a float or object array are truncated towards zero. *)
Definition astype_int (a : ndarray) : ndarray :=
  {| dtype_of := DInt;
     shape := shape a;
     data := match dtype_of a with
             | DFloat | DObject =>
                 map (fun q => inject_Z (Z.quot (Qnum q) (Z.pos (Qden q)))) (data a)
             | DBool | DInt => data a
             end |}.

(** Index of the first greatest entry of a non-empty list, scanning left
    to right: [best] is the index of the greatest entry [bv] seen so far
    and [i] the index of the head of [l]. *)
Fixpoint argmax_from (best : nat) (bv : Q) (i : nat) (l : list Q) : nat :=
  match l with
  | [] => best
  | x :: xs =>
      if Qle_bool x bv then argmax_from best bv (S i) xs
      else argmax_from i x (S i) xs
  end.

Definition argmax_list (l : list Q) : result nat :=
  match l with
  | [] => raise ValueError
  | x :: xs => ret (argmax_from 0 x 1 xs)
  end.

Definition of_nat (n : nat) : Q := inject_Z (Z.of_nat n).

(** [np.argmax(a)]: the index into the flattened array, a Python int. *)
Definition argmax (a : ndarray) : result nat :=
  argmax_list (data a).

(** [np.argmax(a, axis=1)]: for an array of shape [d0 :: d1 :: rest] the
    result has shape [d0 :: rest]; entry [(i0, j)] is the position along
    axis 1 of the greatest of [a[i0, 0, j], ..., a[i0, d1 - 1, j]].  An
    axis of length 0 cannot be reduced. *)
Definition argmax_axis1 (a : ndarray) : result ndarray :=
  match shape a with
  | d0 :: d1 :: rest =>
      let r := size_of rest in
      if d1 =? 0 then raise ValueError
      else
        cells <- for_append
          (fun ij : nat * nat =>
             let (i0, j) := ij in
             k <- argmax_list
                    (map (fun i1 => nth ((i0 * d1 + i1) * r + j) (data a) 0%Q)
                         (seq 0 d1)) ;;
             ret (of_nat k))
          (list_prod (seq 0 d0) (seq 0 r)) ;;
        ret {| dtype_of := DInt; shape := d0 :: rest; data := cells |}
  | _ => raise AxisError
  end.

(** [np.argmax(a, axis=-1)], the arg-max over the last axis: for an array
    of shape [pre ++ [dl]] the result has shape [pre]; entry [o] is the
    position of the greatest of the [dl] consecutive entries that start at
    [o * dl]. *)
Definition argmax_last_axis (a : ndarray) : result ndarray :=
  match rev (shape a) with
  | dl :: rpre =>
      let pre := rev rpre in
      if dl =? 0 then raise ValueError
      else
        cells <- for_append
          (fun o =>
             k <- argmax_list
                    (map (fun i => nth (o * dl + i) (data a) 0%Q) (seq 0 dl)) ;;
             ret (of_nat k))
          (seq 0 (size_of pre)) ;;
        ret {| dtype_of := DInt; shape := pre; data := cells |}
  | [] => raise AxisError
  end.

End np.

(* ===================================================================== *)
(** * Model objects                                                       *)
(* ===================================================================== *)

(** What the module observes of a model object: the text of its type, its
    class membership, two attributes, and the native inference entry point
    [native], whose type [B] depends on the framework of the model. *)
Module Obj.

(** The attribute [_model_impl] of an MLflow pyfunc model.
    [python_model_type] is [str(type(impl.python_model))], or [None] when
    the attribute [python_model] is missing. *)
Record ModelImpl : Type := {
  python_model_type : option string
}.

Record object (B : Type) : Type := {
  type_repr : string;               (* str(type(model)) *)
  isinstance_nn_Module : bool;      (* isinstance(model, nn.Module) *)
  _model_impl : option ModelImpl;   (* None: hasattr(model, '_model_impl') is False *)
  has_eval : bool;                  (* the object has a method eval *)
  training : bool;                  (* the mode flag that eval() clears *)
  native : B
}.

(** [model.eval()]: the object is put in evaluation mode. *)
Definition eval {B : Type} (model : object B) : result (object B) :=
  if has_eval model then
    ret {| type_repr := type_repr model;
           isinstance_nn_Module := isinstance_nn_Module model;
           _model_impl := _model_impl model;
           has_eval := has_eval model;
           training := false;
           native := native model |}
  else raise AttributeError.

End Obj.
Import Obj.

(* ===================================================================== *)
(** * Generic transformer adapter                                         *)
(* ===================================================================== *)

Module Transformer.

(** The wrapped model is called on the dataset and returns the raw
    scores. *)
Definition call (dataset : Type) : Type := dataset -> result np.ndarray.

Record WrappedTransformerImageClassificationModel (B : Type) : Type := {
  _model : object B
}.

Definition __init__ {B : Type} (model : object B)
  : WrappedTransformerImageClassificationModel B :=
  {| _model := model |}.

Section Methods.
Variable dataset : Type.
Variable self : WrappedTransformerImageClassificationModel (call dataset).

Definition predict (ds : dataset) : result np.ndarray :=
  raw <- native (_model self) ds ;;
  np.argmax_axis1 raw.

Definition predict_proba (ds : dataset) : result np.ndarray :=
  native (_model self) ds.
End Methods.

End Transformer.

(* ===================================================================== *)
(** * fastai adapter                                                      *)
(* ===================================================================== *)

Module FastAI.

(** [learner.predict(image)] returns a tuple; entry [i] of the tuple is
    represented by the array that [np.array] makes of it. *)
Definition learner : Type := np.ndarray -> result (list np.ndarray).

Record WrappedFastAIImageClassificationModel (B : Type) : Type := {
  _model : object B;
  _multilabel : bool
}.

Definition __init__ {B : Type} (model : object B) (multilabel : bool)
  : WrappedFastAIImageClassificationModel B :=
  {| _model := model; _multilabel := multilabel |}.

Section Methods.
Variable self : WrappedFastAIImageClassificationModel learner.

(** The branch of [_fastai_predict] for an input that is not
    4-dimensional. *)
Definition _fastai_predict_single (dataset : np.ndarray) (index : nat)
  : result np.ndarray :=
  t <- native (_model self) dataset ;;
  predictions <- Py.getitem t index ;;
  predictions <-
    (if np.ndim predictions =? 0 then np.reshape1 predictions
     else ret predictions) ;;
  ret (if index =? 1 then
         if np.dtype_eqb (np.dtype_of predictions) np.DBool
         then np.astype_int predictions
         else predictions
       else predictions).

(** [_fastai_predict]: the recursive call is on a row of the dataset,
    whose shape is one entry shorter; [depth] bounds the number of
    axes of the dataset. *)
Fixpoint _fastai_predict_at (depth : nat) (dataset : np.ndarray)
  (index : nat) {struct depth} : result np.ndarray :=
  match depth with
  | 0 => _fastai_predict_single dataset index
  | S depth' =>
      if np.ndim dataset =? 4 then
        rows <- np.iter dataset ;;
        predictions <-
          for_append (fun row => _fastai_predict_at depth' row index) rows ;;
        predictions <- np.array predictions ;;
        ret (if (index =? 1) && negb (_multilabel self)
             then np.flatten predictions
             else predictions)
      else _fastai_predict_single dataset index
  end.

Definition _fastai_predict (dataset : np.ndarray) (index : nat)
  : result np.ndarray :=
  _fastai_predict_at (np.ndim dataset) dataset index.

Definition predict (dataset : np.ndarray) : result np.ndarray :=
  _fastai_predict dataset 1.

Definition predict_proba (dataset : np.ndarray) : result np.ndarray :=
  _fastai_predict dataset 2.
End Methods.

End FastAI.

(* ===================================================================== *)
(** * MLflow AutoML-vision adapter                                        *)
(* ===================================================================== *)

Module pd.

(** A column: its dtype and its cells, one per row; a cell holds an
    array-like value. *)
Record Series : Type := {
  dtype : np.dtype;
  values : list np.ndarray
}.

(** A data frame: its number of rows and its named columns. *)
Record DataFrame : Type := {
  nrows : nat;
  columns : list (string * Series)
}.

Definition column (df : DataFrame) (name : string) : option Series :=
  option_map snd
    (find (fun c => String.eqb (fst c) name) (columns df)).

(** The cells of column [name]. *)
Definition lookup (df : DataFrame) (name : string)
  : option (list np.ndarray) :=
  option_map values (column df name).

(** [df.loc[:, name]] *)
Definition loc_column (df : DataFrame) (name : string)
  : result Series :=
  match column df name with
  | Some c => ret c
  | None => raise KeyError
  end.

(** [df.name], for a name that is not a method of the frame. *)
Definition getattr_column (df : DataFrame) (name : string)
  : result Series :=
  match column df name with
  | Some c => ret c
  | None => raise AttributeError
  end.

(** [series.map(f).values] for an [f] that returns Python ints: [f] is
    called on the cells in order and the results form an integer vector.
    A series with no row is returned as it is, so the vector keeps the
    dtype of the column. *)
Definition map_values (f : np.ndarray -> result nat)
  (series : Series) : result np.ndarray :=
  ks <- for_append f (values series) ;;
  ret {| np.dtype_of := match ks with
                        | [] => dtype series
                        | _ :: _ => np.DInt
                        end;
         np.shape := [length ks];
         np.data := map np.of_nat ks |}.

End pd.

Module Mlflow.

(** [model.predict(frame)] of an MLflow pyfunc model. *)
Definition pyfunc : Type := pd.DataFrame -> result pd.DataFrame.

Record WrappedMlflowAutomlImagesClassificationModel (B : Type) : Type := {
  _model : object B
}.

Definition __init__ {B : Type} (model : object B)
  : WrappedMlflowAutomlImagesClassificationModel B :=
  {| _model := model |}.

Section Methods.
Variable self : WrappedMlflowAutomlImagesClassificationModel pyfunc.

Definition _mlflow_predict (dataset : pd.DataFrame)
  : result pd.DataFrame :=
  predictions <- native (_model self) dataset ;;
  ret predictions.

Definition predict (dataset : pd.DataFrame) : result np.ndarray :=
  predictions <- _mlflow_predict dataset ;;
  probs <- pd.loc_column predictions "probs" ;;
  pd.map_values (fun x => np.argmax x) probs.

Definition predict_proba (dataset : pd.DataFrame) : result np.ndarray :=
  predictions <- _mlflow_predict dataset ;;
  probs <- pd.getattr_column predictions "probs" ;;
  np.stack (pd.values probs).
End Methods.

End Mlflow.

(* ===================================================================== *)
(** * torch and torchvision                                               *)
(* ===================================================================== *)

Module torch.

Inductive device : Type := cuda | cpu.

(** The tensor handed to a detection model. *)
Record Tensor : Type := {
  on : device;
  values : np.ndarray
}.

(** [t.to(d)] *)
Definition to (t : Tensor) (d : device) : Tensor :=
  {| on := d; values := values t |}.

(** [t.unsqueeze(0)] *)
Definition unsqueeze0 (t : Tensor) : Tensor :=
  {| on := on t;
     values := {| np.dtype_of := np.dtype_of (values t);
                  np.shape := 1 :: np.shape (values t);
                  np.data := np.data (values t) |} |}.

(** A vector is the list of its entries, a matrix the list of its rows. *)
Definition vector : Type := list Q.
Definition matrix : Type := list (list Q).

(** The dict a detection model returns for one image: [boxes] is a
    matrix with a row [x1, y1, x2, y2] per detection, [scores] and
    [labels] are vectors with an entry per detection. *)
Record Detections : Type := {
  boxes : matrix;
  scores : vector;
  labels : vector
}.

(** [t[keep]] for a tensor [keep] of row indices. *)
Definition index {A : Type} (t : list A) (keep : list nat)
  : result (list A) :=
  for_append (Py.getitem t) keep.

(** [v.unsqueeze(1)] of a vector: a matrix with one column. *)
Definition unsqueeze1 (v : vector) : matrix := map (fun x => [x]) v.

Definition cat2 (a b : matrix) : result matrix :=
  if length a =? length b
  then ret (map (fun p => fst p ++ snd p) (combine a b))
  else raise RuntimeError.

(** [torch.cat((a, b, c), dim=1)] of matrices: the rows are joined; the
    numbers of rows must agree. *)
Definition cat_dim1 (a b c : matrix) : result matrix :=
  ab <- cat2 a b ;;
  cat2 ab c.

(** [torch.device("cuda" if torch.cuda.is_available() else "cpu")] and
    the names the module imports in its [try] blocks; a name whose import
    failed is unbound ([None], [false]).  [nms] is
    [torchvision.ops.nms(boxes, scores, iou_threshold)], which returns the
    indices of the boxes it keeps. *)
Record Imports : Type := {
  torch_bound : bool;
  cuda_is_available : bool;
  ToTensor : option (np.ndarray -> Tensor);
  nms : option (matrix -> vector -> Q -> result (list nat))
}.

(** The value of a global name, [NameError] when it is unbound. *)
Definition global {A : Type} (name : option A) : result A :=
  match name with
  | Some v => ret v
  | None => raise NameError
  end.

(** ** Greedy non-maximum suppression

    The documented behaviour of [torchvision.ops.nms]: the boxes are
    visited by decreasing score; a box is dropped when its
    intersection-over-union with a box kept before it is greater than
    the threshold; the kept indices are returned by decreasing score. *)

Definition Qmaxb (a b : Q) : Q := if Qle_bool a b then b else a.
Definition Qminb (a b : Q) : Q := if Qle_bool a b then a else b.

Definition coord (b : list Q) (i : nat) : Q := nth i b 0%Q.

Definition area (b : list Q) : Q :=
  ((coord b 2 - coord b 0) * (coord b 3 - coord b 1))%Q.

Definition iou (a b : list Q) : Q :=
  let w := Qmaxb 0 (Qminb (coord a 2) (coord b 2)
                    - Qmaxb (coord a 0) (coord b 0))%Q in
  let h := Qmaxb 0 (Qminb (coord a 3) (coord b 3)
                    - Qmaxb (coord a 1) (coord b 1))%Q in
  let inter := (w * h)%Q in
  (inter / (area a + area b - inter))%Q.

(** Insertion of index [i] in a list of indices ordered by decreasing
    score; equal scores keep their order of arrival. *)
Fixpoint insert_by_score (s : vector) (i : nat) (l : list nat) : list nat :=
  match l with
  | [] => [i]
  | j :: l' =>
      if Qle_bool (nth i s 0%Q) (nth j s 0%Q)
      then j :: insert_by_score s i l'
      else i :: l
  end.

Definition argsort_desc (s : vector) : list nat :=
  fold_left (fun acc i => insert_by_score s i acc) (seq 0 (length s)) [].

Definition overlaps (bs : matrix) (thr : Q) (i k : nat) : bool :=
  negb (Qle_bool (iou (nth k bs []) (nth i bs [])) thr).

Definition greedy_nms (bs : matrix) (s : vector) (thr : Q)
  : result (list nat) :=
  if length bs =? length s then
    ret (fold_left
           (fun kept i =>
              if existsb (overlaps bs thr i) kept then kept
              else kept ++ [i])
           (argsort_desc s) [])
  else raise RuntimeError.

End torch.

(* ===================================================================== *)
(** * Object detection adapter                                            *)
(* ===================================================================== *)

Module ObjectDetection.

(** The wrapped detector is called on a batch of one image and returns
    a list with one [Detections] per image of the batch. *)
Definition detector : Type :=
  torch.Tensor -> result (list torch.Detections).

Record WrappedObjectDetectionModel (B : Type) : Type := {
  _device : torch.device;
  _model : object B
}.

Definition __init__ {B : Type} (env : torch.Imports) (model : object B)
  : result (WrappedObjectDetectionModel B) :=
  device <- (if torch.torch_bound env
             then ret (if torch.cuda_is_available env
                       then torch.cuda else torch.cpu)
             else raise NameError) ;;
  (* Set eval automatically for user for batchnorm and dropout layers *)
  model <- Obj.eval model ;;
  ret {| _device := device; _model := model |}.

Definition default_predict_threshold : Q := 0.1%Q.
Definition default_predict_proba_threshold : Q := 0.05%Q.

Section Methods.
Variable env : torch.Imports.
Variable self : WrappedObjectDetectionModel detector.

(** The body of the loop of [predict] for one image. *)
Definition predict_image (detection_error_threshold : Q)
  (image : np.ndarray) : result torch.matrix :=
  to_tensor <- torch.global (torch.ToTensor env) ;;
  detections <-
    native (_model self)
      (torch.unsqueeze0 (torch.to (to_tensor image) (_device self))) ;;
  prediction <- Py.getitem detections 0 ;;
  nms <- torch.global (torch.nms env) ;;
  keep <- nms (torch.boxes prediction) (torch.scores prediction)
              detection_error_threshold ;;
  boxes <- torch.index (torch.boxes prediction) keep ;;
  scores <- torch.index (torch.scores prediction) keep ;;
  labels <- torch.index (torch.labels prediction) keep ;;
  image_predictions <-
    torch.cat_dim1 (torch.unsqueeze1 labels) boxes
                   (torch.unsqueeze1 scores) ;;
  ret image_predictions.

(** [predict(dataset, detection_error_threshold=0.1)] *)
Definition predict (dataset : list np.ndarray)
  (detection_error_threshold : option Q) : result (list torch.matrix) :=
  let detection_error_threshold :=
    or_default detection_error_threshold default_predict_threshold in
  for_append (predict_image detection_error_threshold) dataset.

(** [predict_proba(dataset, detection_error_threshold=0.05)] *)
Definition predict_proba (dataset : list np.ndarray)
  (detection_error_threshold : option Q) : result (list torch.vector) :=
  let detection_error_threshold :=
    or_default detection_error_threshold default_predict_proba_threshold in
  predictions <- predict dataset (Some detection_error_threshold) ;;
  for_append
    (fun image_prediction =>
       for_append (fun pred => Py.getitem_last pred) image_prediction)
    predictions.
End Methods.

End ObjectDetection.

(* ===================================================================== *)
(** * The factory                                                         *)
(* ===================================================================== *)

Module Factory.

(** Modelled from the spec: the task taxonomy [ModelTask] of
    [ml_wrappers.common.constants], which provides at least single-label
    image classification, multi-label image classification and object
    detection; [OtherTask] is any other task string. *)
Inductive ModelTask : Type :=
| IMAGE_CLASSIFICATION
| MULTILABEL_IMAGE_CLASSIFICATION
| OBJECT_DETECTION
| OtherTask (name : string).

Definition FASTAI_MODEL_SUFFIX : string := "fastai.learner.Learner'>".

Definition MLFLOW_AUTOML_SUFFIX : string :=
  "azureml.automl.dnn.vision.common.mlflow.mlflow_model_wrapper.MLFlowImagesModelWrapper'>".

Definition _is_fastai_model {B : Type} (model : object B) : bool :=
  endswith (type_repr model) FASTAI_MODEL_SUFFIX.

(** What the factory hands back as the model: one of the adapters of this
    module, or an object that is none of them (the input model itself, or
    what [WrappedClassificationModel] built). *)
Inductive wrapped (B : Type) : Type :=
| Plain (model : object B)
| FastAIAdapter (w : FastAI.WrappedFastAIImageClassificationModel B)
| MlflowAdapter (w : Mlflow.WrappedMlflowAutomlImagesClassificationModel B)
| TransformerAdapter
    (w : Transformer.WrappedTransformerImageClassificationModel B)
| ObjectDetectionAdapter (w : ObjectDetection.WrappedObjectDetectionModel B).

Arguments Plain {B} model.
Arguments FastAIAdapter {B} w.
Arguments MlflowAdapter {B} w.
Arguments TransformerAdapter {B} w.
Arguments ObjectDetectionAdapter {B} w.

Section Wrap.
(** The model evaluation examples are a [DatasetWrapper] already, or
    something else. *)
Variables B raw_examples dataset_wrapper eval_function : Type.

Inductive examples_t : Type :=
| IsDatasetWrapper (d : dataset_wrapper)
| NotDatasetWrapper (x : raw_examples).

(** The classes and the function the factory imports from the rest of
    the package; each may raise. *)
Record Package : Type := {
  WrappedPytorchModel : object B -> bool -> result (object B);
  DatasetWrapper : raw_examples -> result dataset_wrapper;
  _eval_model :
    object B -> dataset_wrapper -> ModelTask ->
    result (eval_function * ModelTask);
  WrappedClassificationModel :
    object B -> eval_function -> dataset_wrapper -> result (object B)
}.

Variable env : torch.Imports.
Variable pkg : Package.

(** The body of the [try] statement.  The first component is the
    binding of the local variable [model] when the body is left; the
    second is the exception that left it, or [Some v] after
    [return v], or [None] at the end of the body. *)
Definition try_pytorch (model : object B) (examples : examples_t)
  (model_task : ModelTask)
  : object B * result (option (wrapped B * ModelTask)) :=
  if torch.torch_bound env then
    if isinstance_nn_Module model then
      match WrappedPytorchModel pkg model true with
      | inl e => (model, inl e)
      | inr model =>
          (model,
           examples <-
             match examples with
             | IsDatasetWrapper d => ret d
             | NotDatasetWrapper x => DatasetWrapper pkg x
             end ;;
           r <- _eval_model pkg model examples model_task ;;
           let (eval_function, eval_ml_domain) :=
             (r : eval_function * ModelTask) in
           w <- WrappedClassificationModel pkg model eval_function
                  examples ;;
           ret (Some (Plain w, eval_ml_domain)))
      end
    else (model, ret None)
  else (model, raise NameError).

(** The statements after the [try] statement, for single-label image
    classification; [_wrapped_model] is still the input model. *)
Definition classify (_wrapped_model : wrapped B) (model : object B)
  : result (wrapped B) :=
  if _is_fastai_model model then
    ret (FastAIAdapter (FastAI.__init__ model false))
  else
    match _model_impl model with
    | Some impl =>
        match python_model_type impl with
        | Some t =>
            if endswith t MLFLOW_AUTOML_SUFFIX
            then ret (MlflowAdapter (Mlflow.__init__ model))
            else ret _wrapped_model
        | None => raise AttributeError
        end
    | None => ret (TransformerAdapter (Transformer.__init__ model))
    end.

Definition _wrap_image_model (model : object B) (examples : examples_t)
  (model_task : ModelTask) (is_function : bool)
  : result (wrapped B * ModelTask) :=
  let _wrapped_model := Plain model in
  match model_task with
  | IMAGE_CLASSIFICATION =>
      let (model, outcome) := try_pytorch model examples model_task in
      match outcome with
      | inr (Some v) => ret v
      | inl (OtherError _ as e)
      | inl (IndexError as e) | inl (KeyError as e)
      | inl (TypeError as e) | inl (ValueError as e)
      | inl (AxisError as e) | inl (RuntimeError as e) => raise e
      | inl NameError | inl AttributeError | inr None =>
          _wrapped_model <- classify _wrapped_model model ;;
          ret (_wrapped_model, model_task)
      end
  | MULTILABEL_IMAGE_CLASSIFICATION =>
      if _is_fastai_model model
      then ret (FastAIAdapter (FastAI.__init__ model true), model_task)
      else ret (_wrapped_model, model_task)
  | OBJECT_DETECTION =>
      w <- ObjectDetection.__init__ env model ;;
      ret (ObjectDetectionAdapter w, model_task)
  | OtherTask _ => ret (_wrapped_model, model_task)
  end.
End Wrap.

End Factory.

(* ===================================================================== *)
(** * Notions the statements use                                          *)
(* ===================================================================== *)

(** The trailing entry of a detection row [label, x1, y1, x2, y2, score]. *)
Definition trailing (row : list Q) : Q := last row 0%Q.

(** A row of the matrix that [torch.cat] builds ends with its score. *)
Definition ends_with_score (row : list Q) : Prop :=
  exists front s, row = front ++ [s].

(** [k] is the position of the first greatest entry of [l]. *)
Definition first_greatest (l : list Q) (k : nat) : Prop :=
  k < length l /\
  (forall j, j < length l -> (nth j l 0 <= nth k l 0)%Q) /\
  (forall j, j < k -> (nth j l 0 < nth k l 0)%Q).

(** [is_automl_vision model]: the model has [_model_impl] and the type of
    its [python_model] is the AutoML-vision wrapper. *)
Definition is_automl_vision {B : Type} (model : object B) : bool :=
  match _model_impl model with
  | Some impl =>
      match python_model_type impl with
      | Some t => endswith t Factory.MLFLOW_AUTOML_SUFFIX
      | None => false
      end
  | None => false
  end.

(** The detection chain of the factory runs to its end on [model] and
    picks no adapter: the task is none of the three image tasks; or it is
    multi-label classification and the model is no fastai learner; or it
    is single-label classification, the framework-native path does not
    apply ([nn] is unbound or the model is no [nn.Module]), the model is no
    fastai learner, and it has a [_model_impl] whose [python_model] is of
    another type than the AutoML-vision wrapper. *)
Definition no_adapter_rule {B : Type} (env : torch.Imports)
  (model : object B) (task : Factory.ModelTask) : bool :=
  match task with
  | Factory.IMAGE_CLASSIFICATION =>
      (negb (torch.torch_bound env) || negb (isinstance_nn_Module model))
      && negb (Factory._is_fastai_model model)
      && match _model_impl model with
         | Some impl =>
             match python_model_type impl with
             | Some t => negb (endswith t Factory.MLFLOW_AUTOML_SUFFIX)
             | None => false
             end
         | None => false
         end
  | Factory.MULTILABEL_IMAGE_CLASSIFICATION =>
      negb (Factory._is_fastai_model model)
  | Factory.OBJECT_DETECTION => false
  | Factory.OtherTask _ => true
  end.

(* ===================================================================== *)
(** * Concrete models and batches                                         *)
(* ===================================================================== *)

Module Examples.

Definition vec (d : np.dtype) (l : list Q) : np.ndarray :=
  {| np.dtype_of := d; np.shape := [length l]; np.data := l |}.

Definition scalar (d : np.dtype) (x : Q) : np.ndarray :=
  {| np.dtype_of := d; np.shape := []; np.data := [x] |}.

(** A batch of [n] images of one pixel and one channel. *)
Definition batch_of (n : nat) : np.ndarray :=
  {| np.dtype_of := np.DFloat; np.shape := [n; 1; 1; 1];
     np.data := repeat 0%Q n |}.

Definition some_object {B : Type} (repr : string) (is_module : bool)
  (impl : option ModelImpl) (f : B) : object B :=
  {| type_repr := repr; isinstance_nn_Module := is_module;
     _model_impl := impl; has_eval := is_module; training := is_module;
     native := f |}.

(** ** Object detection: two boxes whose intersection-over-union, 60/740,
    lies between the two default thresholds. *)

Definition od_env : torch.Imports :=
  {| torch.torch_bound := true;
     torch.cuda_is_available := false;
     torch.ToTensor :=
       Some (fun a => {| torch.on := torch.cpu; torch.values := a |});
     torch.nms := Some torch.greedy_nms |}.

Definition od_detector : ObjectDetection.detector :=
  fun _ =>
    ret [ {| torch.boxes := [[0; 0; 20; 20]; [17; 0; 37; 20]]%Q;
             torch.scores := [0.8; 0.9]%Q;
             torch.labels := [1; 2]%Q |} ].

Definition od_model : object ObjectDetection.detector :=
  some_object "<class 'torchvision.models.detection.faster_rcnn.FasterRCNN'>"
    true None od_detector.

Definition od_adapter
  : ObjectDetection.WrappedObjectDetectionModel ObjectDetection.detector :=
  {| ObjectDetection._device := torch.cpu;
     ObjectDetection._model :=
       {| type_repr := type_repr od_model;
          isinstance_nn_Module := true;
          _model_impl := None;
          has_eval := true;
          training := false;
          native := od_detector |} |}.

Definition od_image : np.ndarray :=
  {| np.dtype_of := np.DInt; np.shape := [1; 1; 3]; np.data := [0; 0; 0]%Q |}.

(** ** The factory: objects without inference entry point *)

Definition pytorch_wrapper_repr : string :=
  "<class 'ml_wrappers.model.pytorch_wrapper.WrappedPytorchModel'>".

(** A package whose evaluation probe raises [AttributeError]. *)
Definition failing_probe : Factory.Package unit unit unit unit :=
  {| Factory.WrappedPytorchModel :=
       fun model _ => ret (some_object pytorch_wrapper_repr false None tt);
     Factory.DatasetWrapper := fun x => ret x;
     Factory._eval_model := fun _ _ _ => raise AttributeError;
     Factory.WrappedClassificationModel := fun model _ _ => ret model |}.

Definition no_torch : torch.Imports :=
  {| torch.torch_bound := false; torch.cuda_is_available := false;
     torch.ToTensor := None; torch.nms := None |}.

(** An MLflow pyfunc model of a custom Python model class. *)
Definition mlflow_custom_model : object unit :=
  some_object "<class 'mlflow.pyfunc.PyFuncModel'>" false
    (Some {| python_model_type := Some "<class '__main__.Classifier'>" |}) tt.

(** An MLflow pyfunc model whose implementation has no [python_model]. *)
Definition mlflow_flavor_model : object unit :=
  some_object "<class 'mlflow.pyfunc.PyFuncModel'>" false
    (Some {| python_model_type := None |}) tt.

(** An [nn.Module] whose type text carries the fastai suffix. *)
Definition native_fastai_model : object unit :=
  some_object "<class 'fastai.learner.Learner'>" true None tt.

Definition pipeline_model : object unit :=
  some_object "<class 'transformers.pipelines.ImageClassificationPipeline'>"
    false None tt.

(** ** fastai learners *)

(** A single-label learner: the tuple holds the decoded label, the class
    index as a 0-dimensional tensor and the class probabilities. *)
Definition scalar_learner : FastAI.learner :=
  fun _ => ret [scalar np.DInt 1; scalar np.DInt 1;
                vec np.DFloat [0.3; 0.7]%Q].

(** A multi-label learner: entry 1 is a boolean mask over the classes. *)
Definition mask_learner : FastAI.learner :=
  fun _ => ret [scalar np.DInt 1; vec np.DBool [0; 1]%Q;
                vec np.DFloat [0.2; 0.9]%Q].

Definition fastai_adapter (f : FastAI.learner) (multilabel : bool)
  : FastAI.WrappedFastAIImageClassificationModel FastAI.learner :=
  FastAI.__init__ (some_object "<class 'fastai.learner.Learner'>" false None f)
    multilabel.

(** ** Transformer models *)

Definition transformer_adapter (raw : np.ndarray)
  : Transformer.WrappedTransformerImageClassificationModel
      (Transformer.call np.ndarray) :=
  Transformer.__init__
    (some_object "<class 'transformers.pipelines.ImageClassificationPipeline'>"
       false None (fun _ : np.ndarray => ret raw)).

Definition raw_3d : np.ndarray :=
  {| np.dtype_of := np.DFloat; np.shape := [1; 2; 2];
     np.data := [0; 1; 0; 1]%Q |}.

Definition raw_2d : np.ndarray :=
  {| np.dtype_of := np.DFloat; np.shape := [2; 3];
     np.data := [0.1; 0.7; 0.2; 0.5; 0.25; 0.25]%Q |}.

(** ** MLflow models *)

Definition probs_frame : pd.DataFrame :=
  {| pd.nrows := 2;
     pd.columns :=
       [("probs"%string,
         {| pd.dtype := np.DObject;
            pd.values :=
              [vec np.DFloat [0.1; 0.9]%Q; vec np.DFloat [0.8; 0.2]%Q] |})] |}.

Definition images_frame : pd.DataFrame :=
  {| pd.nrows := 2;
     pd.columns :=
       [("image"%string,
         {| pd.dtype := np.DObject;
            pd.values := [scalar np.DInt 0; scalar np.DInt 0] |})] |}.

(** The frame that the native [predict] returns for a batch of no image:
    its column has no row and the dtype [float64]. *)
Definition empty_probs_frame : pd.DataFrame :=
  {| pd.nrows := 0;
     pd.columns :=
       [("probs"%string, {| pd.dtype := np.DFloat; pd.values := [] |})] |}.

Definition empty_images_frame : pd.DataFrame :=
  {| pd.nrows := 0;
     pd.columns :=
       [("image"%string, {| pd.dtype := np.DFloat; pd.values := [] |})] |}.

(** An AutoML-vision model whose native [predict] returns [frame]. *)
Definition mlflow_adapter_returning (frame : pd.DataFrame)
  : Mlflow.WrappedMlflowAutomlImagesClassificationModel Mlflow.pyfunc :=
  Mlflow.__init__
    (some_object "<class 'mlflow.pyfunc.PyFuncModel'>" false
       (Some {| python_model_type :=
                  Some "<class 'azureml.automl.dnn.vision.common.mlflow.mlflow_model_wrapper.MLFlowImagesModelWrapper'>" |})
       (fun _ : pd.DataFrame => ret frame)).

Definition mlflow_adapter
  : Mlflow.WrappedMlflowAutomlImagesClassificationModel Mlflow.pyfunc :=
  mlflow_adapter_returning probs_frame.

End Examples.

(* ===================================================================== *)
(** * Further concrete models, for error and edge behaviour               *)
(* ===================================================================== *)

Module Cases.

(** [torch] is imported, the import of [ToTensor] failed. *)
Definition no_ToTensor : torch.Imports :=
  {| torch.torch_bound := true;
     torch.cuda_is_available := true;
     torch.ToTensor := None;
     torch.nms := Some torch.greedy_nms |}.

(** [torch] and [ToTensor] are bound, the name [torchvision] is not. *)
Definition no_torchvision : torch.Imports :=
  {| torch.torch_bound := true;
     torch.cuda_is_available := false;
     torch.ToTensor :=
       Some (fun a => {| torch.on := torch.cpu; torch.values := a |});
     torch.nms := None |}.

(** The detection adapter around a detector [f], in evaluation mode. *)
Definition detection_adapter (f : ObjectDetection.detector)
  : ObjectDetection.WrappedObjectDetectionModel ObjectDetection.detector :=
  {| ObjectDetection._device := torch.cpu;
     ObjectDetection._model :=
       {| type_repr := "<class 'torchvision.models.detection.faster_rcnn.FasterRCNN'>";
          isinstance_nn_Module := true;
          _model_impl := None;
          has_eval := true;
          training := false;
          native := f |} |}.

(** A detector that raises [RuntimeError] on an image whose first entry
    is 1 and detects two boxes in any other image. *)
Definition picky_detector : ObjectDetection.detector :=
  fun t =>
    if Qeq_bool (hd 0%Q (np.data (torch.values t))) 1%Q
    then raise RuntimeError
    else Examples.od_detector t.

Definition bad_image : np.ndarray :=
  {| np.dtype_of := np.DInt; np.shape := [1; 1; 3]; np.data := [1; 0; 0]%Q |}.

(** A detector that returns an empty list of results. *)
Definition silent_detector : ObjectDetection.detector := fun _ => ret [].

(** A single-label learner whose class index is the first entry of the
    image. *)
Definition pixel_learner : FastAI.learner :=
  fun x =>
    ret [Examples.scalar np.DInt 0;
         Examples.scalar np.DInt (hd 0%Q (np.data x));
         Examples.vec np.DFloat [0.5; 0.5]%Q].

(** The same class indices, with another decoded label and other
    probabilities. *)
Definition pixel_learner' : FastAI.learner :=
  fun x =>
    ret [Examples.scalar np.DInt 7;
         Examples.scalar np.DInt (hd 0%Q (np.data x));
         Examples.vec np.DFloat [0.1; 0.9]%Q].

(** Two images of one pixel, with entries 3 and 5. *)
Definition two_pixels : np.ndarray :=
  {| np.dtype_of := np.DFloat; np.shape := [2; 1; 1; 1];
     np.data := [3; 5]%Q |}.

(** A frame whose probability vectors have different lengths. *)
Definition ragged_frame : pd.DataFrame :=
  {| pd.nrows := 2;
     pd.columns :=
       [("probs"%string,
         {| pd.dtype := np.DObject;
            pd.values :=
              [Examples.vec np.DFloat [0.1; 0.9]%Q;
               Examples.vec np.DFloat [0.2; 0.5; 0.3]%Q] |})] |}.

(** A native [predict] that raises. *)
Definition failing_pyfunc (e : exn)
  : Mlflow.WrappedMlflowAutomlImagesClassificationModel Mlflow.pyfunc :=
  Mlflow.__init__
    (Examples.some_object "<class 'mlflow.pyfunc.PyFuncModel'>" false None
       (fun _ : pd.DataFrame => raise e)).

(** A package whose classes and probe all return: the probe resolves the
    task to [OtherTask "image_classification_probabilities"], and objects
    are represented by the text of their type. *)
Definition working_package : Factory.Package unit unit unit unit :=
  {| Factory.WrappedPytorchModel :=
       fun model _ =>
         ret (Examples.some_object Examples.pytorch_wrapper_repr false None tt);
     Factory.DatasetWrapper := fun x => ret x;
     Factory._eval_model :=
       fun _ _ _ =>
         ret (tt, Factory.OtherTask "image_classification_probabilities");
     Factory.WrappedClassificationModel :=
       fun model _ _ =>
         ret (Examples.some_object
                "<class 'ml_wrappers.model.wrapped_classification_model.WrappedClassificationModel'>"
                false None tt) |}.

(** A package whose evaluation probe raises [ValueError]. *)
Definition value_error_package : Factory.Package unit unit unit unit :=
  {| Factory.WrappedPytorchModel :=
       fun model _ =>
         ret (Examples.some_object Examples.pytorch_wrapper_repr false None tt);
     Factory.DatasetWrapper := fun x => ret x;
     Factory._eval_model := fun _ _ _ => raise ValueError;
     Factory.WrappedClassificationModel := fun model _ _ => ret model |}.

(** An [nn.Module] of [torch]. *)
Definition torch_module : object unit :=
  Examples.some_object "<class 'torchvision.models.resnet.ResNet'>" true None
    tt.

(** A fastai learner that is an MLflow pyfunc model too, without
    [python_model]. *)
Definition fastai_with_impl : object unit :=
  Examples.some_object "<class 'fastai.learner.Learner'>" false
    (Some {| python_model_type := None |}) tt.

(** An AutoML-vision model packaged by MLflow. *)
Definition automl_model : object unit :=
  Examples.some_object "<class 'mlflow.pyfunc.PyFuncModel'>" false
    (Some {| python_model_type :=
               Some "<class 'azureml.automl.dnn.vision.common.mlflow.mlflow_model_wrapper.MLFlowImagesModelWrapper'>" |})
    tt.

Definition raw_1d : np.ndarray := Examples.vec np.DFloat [0.2; 0.8]%Q.

End Cases.

(* ===================================================================== *)
(** * Tactics                                                             *)
(* ===================================================================== *)

(** A goal [(x <- c ;; k) = inr v -> G]: either [c] raises, and the
    premise is absurd, or it returns.  The computation that runs first is
    the innermost scrutinee. *)
Ltac first_computation c :=
  lazymatch c with
  | match ?d with inl _ => _ | inr _ => _ end => first_computation d
  | _ => constr:(c)
  end.

Ltac returns_or_raises :=
  match goal with
  | |- match ?c with inl _ => _ | inr _ => _ end = inr _ -> _ =>
      let d := first_computation c in
      destruct d as [?|?] eqn:?; [discriminate|]
  end.

(* ===================================================================== *)
(** * The embedding on concrete inputs                                    *)
(* ===================================================================== *)

Example endswith_fastai_learner :
  endswith "<class 'fastai.learner.Learner'>" Factory.FASTAI_MODEL_SUFFIX
  = true /\
  endswith "<class 'torch.nn.modules.container.Sequential'>"
    Factory.FASTAI_MODEL_SUFFIX = false /\
  endswith "r'>" Factory.FASTAI_MODEL_SUFFIX = false.
Proof. repeat split. Qed.

Example argmax_takes_first_greatest :
  np.argmax_list [0.1; 0.7; 0.2]%Q = inr 1 /\
  np.argmax_list [0.5; 0.5]%Q = inr 0 /\
  np.argmax_list [] = inl ValueError.
Proof. repeat split. Qed.

Example array_of_ragged_list_raises :
  np.array [Examples.vec np.DInt [0; 1]%Q; Examples.vec np.DInt [1]%Q]
  = inl ValueError.
Proof. reflexivity. Qed.

Example array_of_empty_list :
  np.array [] = inr (Examples.vec np.DFloat []).
Proof. reflexivity. Qed.

Example stack_of_empty_list_raises : np.stack [] = inl ValueError.
Proof. reflexivity. Qed.

Example iter_batch_of_two :
  np.iter (Examples.batch_of 2) =
  inr [ {| np.dtype_of := np.DFloat; np.shape := [1; 1; 1];
           np.data := [0%Q] |};
        {| np.dtype_of := np.DFloat; np.shape := [1; 1; 1];
           np.data := [0%Q] |} ].
Proof. reflexivity. Qed.

Example argmax_axis1_of_two_rows :
  np.argmax_axis1 Examples.raw_2d = inr (Examples.vec np.DInt [1; 0]%Q).
Proof. vm_compute. reflexivity. Qed.

Example fastai_single_image :
  FastAI.predict (Examples.fastai_adapter Examples.scalar_learner false)
    {| np.dtype_of := np.DFloat; np.shape := [1; 1; 1]; np.data := [0%Q] |}
  = inr (Examples.vec np.DInt [1%Q]) /\
  FastAI.predict_proba (Examples.fastai_adapter Examples.scalar_learner false)
    {| np.dtype_of := np.DFloat; np.shape := [1; 1; 1]; np.data := [0%Q] |}
  = inr (Examples.vec np.DFloat [0.3; 0.7]%Q).
Proof. split; vm_compute; reflexivity. Qed.

Example fastai_boolean_mask_is_cast :
  FastAI.predict (Examples.fastai_adapter Examples.mask_learner true)
    {| np.dtype_of := np.DFloat; np.shape := [1; 1; 1]; np.data := [0%Q] |}
  = inr (Examples.vec np.DInt [0; 1]%Q).
Proof. vm_compute. reflexivity. Qed.

Example nms_at_both_defaults :
  torch.iou [0; 0; 20; 20]%Q [17; 0; 37; 20]%Q = (60 # 740)%Q /\
  torch.greedy_nms [[0; 0; 20; 20]; [17; 0; 37; 20]]%Q [0.8; 0.9]%Q
    ObjectDetection.default_predict_threshold = inr [1; 0] /\
  torch.greedy_nms [[0; 0; 20; 20]; [17; 0; 37; 20]]%Q [0.8; 0.9]%Q
    ObjectDetection.default_predict_proba_threshold = inr [1].
Proof. repeat split; vm_compute; reflexivity. Qed.

Example detection_adapter_construction :
  ObjectDetection.__init__ Examples.od_env Examples.od_model
  = inr Examples.od_adapter /\
  ObjectDetection.__init__ Examples.no_torch Examples.od_model
  = inl NameError /\
  ObjectDetection.__init__ Examples.od_env Examples.pipeline_model
  = inl AttributeError.
Proof. repeat split. Qed.

Example detection_rows :
  ObjectDetection.predict Examples.od_env Examples.od_adapter
    [Examples.od_image] None
  = inr [[[2; 17; 0; 37; 20; 0.9]; [1; 0; 0; 20; 20; 0.8]]%Q] /\
  ObjectDetection.predict Examples.od_env Examples.od_adapter
    [Examples.od_image] (Some 0.05%Q)
  = inr [[[2; 17; 0; 37; 20; 0.9]]%Q] /\
  ObjectDetection.predict Examples.no_torch Examples.od_adapter
    [Examples.od_image] None
  = inl NameError.
Proof. repeat split; vm_compute; reflexivity. Qed.

(* ===================================================================== *)
(** * Loops                                                               *)
(* ===================================================================== *)

Section ForAppend.
Context {A B : Type}.
Implicit Types (f g : A -> result B) (l : list A).

Lemma for_append_cons f x l :
  for_append f (x :: l) =
  match f x with
  | inl e => inl e
  | inr y => match for_append f l with
             | inl e => inl e
             | inr ys => inr (y :: ys)
             end
  end.
Proof. reflexivity. Qed.

(** A loop that ends normally has appended one result per element. *)
Lemma for_append_length f l ys :
  for_append f l = inr ys -> length ys = length l.
Proof.
  revert ys. induction l as [|x l IH]; intros ys H.
  - inversion H. reflexivity.
  - rewrite for_append_cons in H.
    destruct (f x) as [e|y]; [discriminate|].
    destruct (for_append f l) as [e|zs]; [discriminate|].
    inversion H; subst. simpl. f_equal. apply IH. reflexivity.
Qed.

(** The results are those of the elements, in order. *)
Lemma for_append_Forall2 f l ys :
  for_append f l = inr ys -> Forall2 (fun x y => f x = inr y) l ys.
Proof.
  revert ys. induction l as [|x l IH]; intros ys H.
  - inversion H. constructor.
  - rewrite for_append_cons in H.
    destruct (f x) as [e|y] eqn:Hx; [discriminate|].
    destruct (for_append f l) as [e|zs]; [discriminate|].
    inversion H; subst. constructor; auto.
Qed.

Lemma for_append_map f (h : A -> B) l :
  (forall x, In x l -> f x = inr (h x)) -> for_append f l = inr (map h l).
Proof.
  induction l as [|x l IH]; intros H; [reflexivity|].
  rewrite for_append_cons, (H x (or_introl eq_refl)), IH; [reflexivity|].
  intros y Hy. apply H. right. exact Hy.
Qed.

Lemma for_append_ext f g l :
  (forall x, In x l -> f x = g x) -> for_append f l = for_append g l.
Proof.
  induction l as [|x l IH]; intros H; [reflexivity|].
  rewrite !for_append_cons, (H x (or_introl eq_refl)), IH; [reflexivity|].
  intros y Hy. apply H. right. exact Hy.
Qed.

(** When the body returns on every element, the loop returns. *)
Lemma for_append_returns f l :
  Forall (fun x => exists y, f x = inr y) l ->
  exists ys, for_append f l = inr ys.
Proof.
  induction 1 as [|x l [y Hy] _ [ys IH]].
  - exists []. reflexivity.
  - exists (y :: ys). rewrite for_append_cons, Hy, IH. reflexivity.
Qed.

End ForAppend.

Lemma getitem_last_snoc {A : Type} (l : list A) (x : A) :
  Py.getitem_last (l ++ [x]) = inr x.
Proof. unfold Py.getitem_last. rewrite rev_unit. reflexivity. Qed.

Lemma trailing_snoc (l : list Q) (x : Q) : trailing (l ++ [x]) = x.
Proof. unfold trailing. apply last_last. Qed.

(* ===================================================================== *)
(** * Object detection: scores and rows                                   *)
(* ===================================================================== *)

Lemma cat2_scores_rows (m : torch.matrix) (s : torch.vector) (out : torch.matrix) :
  torch.cat2 m (torch.unsqueeze1 s) = inr out ->
  Forall ends_with_score out /\ map trailing out = s.
Proof.
  unfold torch.cat2, torch.unsqueeze1.
  destruct (length m =? length (map (fun x => [x]) s)) eqn:E; [|discriminate].
  apply Nat.eqb_eq in E. rewrite length_map in E.
  intros H. inversion H; subst out; clear H.
  revert s E. induction m as [|r m IH]; intros [|x s] E; try discriminate.
  - split; [constructor | reflexivity].
  - simpl in E. injection E as E. destruct (IH s E) as [H1 H2].
    simpl. split.
    + constructor; [exists r, x; reflexivity | exact H1].
    + rewrite trailing_snoc. f_equal. exact H2.
Qed.

Lemma ends_with_score_last (row : list Q) :
  ends_with_score row -> Py.getitem_last row = inr (trailing row).
Proof.
  intros (front & s & ->). rewrite getitem_last_snoc, trailing_snoc.
  reflexivity.
Qed.

Section DetectionRows.
Variable env : torch.Imports.
Variable self :
  ObjectDetection.WrappedObjectDetectionModel ObjectDetection.detector.

(** Every row that [predict] makes for an image ends with a score. *)
Lemma predict_image_rows (t : Q) (image : np.ndarray) (m : torch.matrix) :
  ObjectDetection.predict_image env self t image = inr m ->
  Forall ends_with_score m.
Proof.
  unfold ObjectDetection.predict_image, torch.cat_dim1. cbn.
  do 9 returns_or_raises.
  destruct (torch.cat2 _ (torch.unsqueeze1 _)) as [e|out] eqn:E;
    [discriminate|].
  intros H. inversion H; subst m.
  apply (cat2_scores_rows _ _ E).
Qed.

Lemma scores_of_rows (ms : list torch.matrix) :
  Forall (Forall ends_with_score) ms ->
  for_append
    (fun image_prediction =>
       for_append (fun pred => Py.getitem_last pred) image_prediction) ms
  = inr (map (map trailing) ms).
Proof.
  intros H. apply for_append_map. intros m Hm.
  apply for_append_map. intros row Hrow.
  apply ends_with_score_last.
  rewrite Forall_forall in H. specialize (H m Hm).
  rewrite Forall_forall in H. exact (H row Hrow).
Qed.

Lemma predict_rows (dataset : list np.ndarray) (t : option Q)
  (ms : list torch.matrix) :
  ObjectDetection.predict env self dataset t = inr ms ->
  Forall (Forall ends_with_score) ms.
Proof.
  unfold ObjectDetection.predict. intros H.
  apply for_append_Forall2 in H.
  induction H as [|image m l ms Hm _ IH]; constructor; auto.
  eapply predict_image_rows; eauto.
Qed.

(** [predict_proba] at threshold [t] is the trailing column of [predict]
    at the same threshold. *)
Lemma predict_proba_at (dataset : list np.ndarray) (t : Q) :
  ObjectDetection.predict_proba env self dataset (Some t) =
  match ObjectDetection.predict env self dataset (Some t) with
  | inr p => inr (map (map trailing) p)
  | inl e => inl e
  end.
Proof.
  unfold ObjectDetection.predict_proba. cbn.
  destruct (ObjectDetection.predict env self dataset (Some t)) as [e|p] eqn:E;
    [reflexivity|].
  apply scores_of_rows. eapply predict_rows; eauto.
Qed.

End DetectionRows.

(** C1, as amended: called without a threshold, [predict_proba] returns,
    image by image and in input order, the trailing column of what
    [predict] returns at threshold 0.05, the default of [predict_proba];
    an exception of [predict] is passed on.  Nothing is said about
    [predict] at its own default 0.1. *)
Theorem predict_proba_default_is_trailing_column
  (env : torch.Imports)
  (self : ObjectDetection.WrappedObjectDetectionModel ObjectDetection.detector)
  (dataset : list np.ndarray) :
  ObjectDetection.predict_proba env self dataset None =
  match ObjectDetection.predict env self dataset (Some 0.05%Q) with
  | inr p => inr (map (map trailing) p)
  | inl e => inl e
  end.
Proof. exact (predict_proba_at env self dataset 0.05%Q). Qed.

(** C1 fails as stated: on an image with two detections whose overlap is
    60/740, [predict] at its default 0.1 keeps both rows and
    [predict_proba] at its default 0.05 keeps one score. *)
Lemma predict_proba_default_differs_from_predict_default :
  exists p q,
    ObjectDetection.predict Examples.od_env Examples.od_adapter
      [Examples.od_image] None = inr p /\
    ObjectDetection.predict_proba Examples.od_env Examples.od_adapter
      [Examples.od_image] None = inr q /\
    nth 0 q [] = [0.9%Q] /\
    map trailing (nth 0 p []) = [0.9%Q; 0.8%Q] /\
    nth 0 q [] <> map trailing (nth 0 p []).
Proof.
  eexists. eexists.
  split; [vm_compute; reflexivity|].
  split; [vm_compute; reflexivity|].
  split; [reflexivity|].
  split; [reflexivity|].
  vm_compute. discriminate.
Qed.

(** C10: for every threshold [t] given to both operations,
    [predict_proba(batch, t)] is [predict(batch, t)] with every row
    replaced by its trailing entry: one list per image, in input order;
    when [predict] raises, so does [predict_proba]. *)
Theorem predict_proba_same_threshold
  (env : torch.Imports)
  (self : ObjectDetection.WrappedObjectDetectionModel ObjectDetection.detector)
  (dataset : list np.ndarray) (t : Q) :
  ObjectDetection.predict_proba env self dataset (Some t) =
  match ObjectDetection.predict env self dataset (Some t) with
  | inr p => inr (map (map trailing) p)
  | inl e => inl e
  end
  /\
  forall p, ObjectDetection.predict env self dataset (Some t) = inr p ->
    exists q,
      ObjectDetection.predict_proba env self dataset (Some t) = inr q /\
      length q = length dataset /\
      forall i, nth i q [] = map trailing (nth i p []).
Proof.
  pose proof (predict_proba_at env self dataset t) as E.
  split; [exact E|].
  intros p Hp. rewrite Hp in E.
  exists (map (map trailing) p). split; [exact E|]. split.
  - rewrite length_map. unfold ObjectDetection.predict in Hp.
    apply (for_append_length _ _ Hp).
  - intros i. apply (map_nth (map trailing) p [] i).
Qed.

(* ===================================================================== *)
(** * fastai: the recursion over a batch                                  *)
(* ===================================================================== *)

Lemma iter_rows (a : np.ndarray) (rows : list np.ndarray) :
  np.iter a = inr rows ->
  np.len a = inr (length rows) /\
  Forall (fun r => S (np.ndim r) = np.ndim a) rows.
Proof.
  unfold np.iter, np.len, np.ndim.
  destruct (np.shape a) as [|n s]; [discriminate|].
  intros H. inversion H; subst rows; clear H. split.
  - rewrite length_map, length_seq. reflexivity.
  - apply Forall_forall. intros r Hr. apply in_map_iff in Hr.
    destruct Hr as (i & <- & _). reflexivity.
Qed.

Lemma iter_returns (a : np.ndarray) :
  np.ndim a <> 0 -> exists rows, np.iter a = inr rows.
Proof.
  unfold np.iter, np.ndim. destruct (np.shape a) as [|n s]; [easy|].
  intros _. eexists. reflexivity.
Qed.

Section FastAIRecursion.
Variable self : FastAI.WrappedFastAIImageClassificationModel FastAI.learner.

Lemma fastai_not_batch (dataset : np.ndarray) (index : nat) :
  np.ndim dataset <> 4 ->
  FastAI._fastai_predict self dataset index =
  FastAI._fastai_predict_single self dataset index.
Proof.
  intros H. unfold FastAI._fastai_predict.
  destruct (np.ndim dataset) as [|n] eqn:E; [reflexivity|].
  simpl. rewrite E. destruct (Nat.eqb_spec (S n) 4); [contradiction|].
  reflexivity.
Qed.

(** The equation that the Python function satisfies: the loop calls
    [_fastai_predict] itself on every row. *)
Lemma fastai_predict_equation (dataset : np.ndarray) (index : nat) :
  FastAI._fastai_predict self dataset index =
  if np.ndim dataset =? 4 then
    rows <- np.iter dataset ;;
    predictions <-
      for_append (fun row => FastAI._fastai_predict self row index) rows ;;
    predictions <- np.array predictions ;;
    ret (if (index =? 1) && negb (FastAI._multilabel self)
         then np.flatten predictions
         else predictions)
  else FastAI._fastai_predict_single self dataset index.
Proof.
  destruct (Nat.eqb_spec (np.ndim dataset) 4) as [H4|H4].
  - unfold FastAI._fastai_predict at 1. rewrite H4. simpl.
    rewrite H4. simpl.
    destruct (np.iter dataset) as [e|rows] eqn:Hrows; [reflexivity|].
    apply iter_rows in Hrows. destruct Hrows as [_ Hdim].
    rewrite (for_append_ext
               (fun row => FastAI._fastai_predict_at self 3 row index)
               (fun row => FastAI._fastai_predict self row index));
      [reflexivity|].
    intros row Hrow. rewrite Forall_forall in Hdim.
    specialize (Hdim row Hrow). rewrite H4 in Hdim.
    unfold FastAI._fastai_predict. injection Hdim as ->. reflexivity.
  - apply fastai_not_batch. exact H4.
Qed.

End FastAIRecursion.

Lemma array_shape (p : np.ndarray) (ps : list np.ndarray) (a : np.ndarray) :
  np.array (p :: ps) = inr a ->
  np.shape a = length (p :: ps) :: np.shape p /\
  np.data a = concat (map np.data (p :: ps)).
Proof.
  unfold np.array.
  destruct (forallb _ ps); [|discriminate].
  intros H. inversion H. split; reflexivity.
Qed.

Lemma array_len (ps : list np.ndarray) (a : np.ndarray) :
  np.array ps = inr a -> np.len a = inr (length ps).
Proof.
  destruct ps as [|p ps].
  - intros H. inversion H. reflexivity.
  - intros H. apply array_shape in H. destruct H as [H _].
    unfold np.len. rewrite H. reflexivity.
Qed.

(** On an image, that is, on an array that is not 4-dimensional, the two
    modes of the adapter predict alike. *)
Lemma fastai_image_mode_free (model : object FastAI.learner)
  (image : np.ndarray) (index : nat) :
  np.ndim image <> 4 ->
  FastAI._fastai_predict (FastAI.__init__ model false) image index =
  FastAI._fastai_predict (FastAI.__init__ model true) image index.
Proof.
  intros H. rewrite !fastai_not_batch by exact H. reflexivity.
Qed.

(** The batch branch, in terms of the function applied to each image. *)
Lemma fastai_batch_unfolded
  (self : FastAI.WrappedFastAIImageClassificationModel FastAI.learner)
  (batch : np.ndarray) :
  np.ndim batch = 4 ->
  exists images,
    np.iter batch = inr images /\
    Forall (fun image => np.ndim image = 3) images /\
    FastAI.predict self batch =
      (ps <- for_append (FastAI.predict self) images ;;
       stacked <- np.array ps ;;
       ret (if FastAI._multilabel self then stacked
            else np.flatten stacked)) /\
    FastAI.predict_proba self batch =
      (ps <- for_append (FastAI.predict_proba self) images ;;
       np.array ps).
Proof.
  intros H4.
  destruct (iter_returns batch) as [images Hit]; [rewrite H4; discriminate|].
  exists images. destruct (iter_rows _ Hit) as [Hlen Hdim].
  split; [exact Hit|]. split.
  { eapply Forall_impl; [|exact Hdim]. simpl. intros r Hr.
    rewrite H4 in Hr. injection Hr as ->. reflexivity. }
  unfold FastAI.predict, FastAI.predict_proba.
  rewrite !fastai_predict_equation, H4, Hit. cbn.
  split.
  - destruct (for_append _ images) as [e|ps]; [reflexivity|].
    destruct (np.array ps) as [e|a]; [reflexivity|].
    destruct (FastAI._multilabel self); reflexivity.
  - destruct (for_append _ images) as [e|ps]; [reflexivity|].
    destruct (np.array ps) as [e|a]; reflexivity.
Qed.

(** C3, as amended: for a 4-dimensional batch, which holds N
    3-dimensional images, [predict_proba(batch)] is the stack, in input
    order, of [predict_proba] of each image, and [predict(batch)] is the
    stack of [predict] of each image in multilabel mode and that stack
    flattened to one axis in single-label mode. *)
Theorem fastai_batch_is_stack_of_images
  (self : FastAI.WrappedFastAIImageClassificationModel FastAI.learner)
  (batch : np.ndarray) :
  np.ndim batch = 4 ->
  exists images,
    np.iter batch = inr images /\
    np.len batch = inr (length images) /\
    Forall (fun image => np.ndim image = 3) images /\
    FastAI.predict self batch =
      (ps <- for_append (FastAI.predict self) images ;;
       stacked <- np.array ps ;;
       ret (if FastAI._multilabel self then stacked
            else np.flatten stacked)) /\
    FastAI.predict_proba self batch =
      (ps <- for_append (FastAI.predict_proba self) images ;;
       np.array ps).
Proof.
  intros H4.
  destruct (fastai_batch_unfolded self batch H4)
    as (images & Hit & Hdim & Hp & Hpp).
  exists images. destruct (iter_rows _ Hit) as [Hlen _].
  repeat split; assumption.
Qed.

(** An instance: a batch of two images and the single-label learner. *)
Lemma fastai_batch_is_stack_of_images_witness :
  np.ndim (Examples.batch_of 2) = 4 /\
  exists images,
    np.iter (Examples.batch_of 2) = inr images /\
    np.len (Examples.batch_of 2) = inr (length images) /\
    Forall (fun image => np.ndim image = 3) images /\
    FastAI.predict
      (Examples.fastai_adapter Examples.scalar_learner false)
      (Examples.batch_of 2) =
      (ps <- for_append
               (FastAI.predict
                  (Examples.fastai_adapter Examples.scalar_learner false))
               images ;;
       stacked <- np.array ps ;;
       ret (if FastAI._multilabel
                 (Examples.fastai_adapter Examples.scalar_learner false)
            then stacked else np.flatten stacked)) /\
    FastAI.predict_proba
      (Examples.fastai_adapter Examples.scalar_learner false)
      (Examples.batch_of 2) =
      (ps <- for_append
               (FastAI.predict_proba
                  (Examples.fastai_adapter Examples.scalar_learner false))
               images ;;
       np.array ps).
Proof.
  split; [reflexivity|].
  apply (fastai_batch_is_stack_of_images
           (Examples.fastai_adapter Examples.scalar_learner false)
           (Examples.batch_of 2)).
  reflexivity.
Defined.

(** C3 fails as stated: in single-label mode, [predict] of a batch of two
    images is the vector of shape (2,), while the stack of [predict] of
    the two images has shape (2, 1). *)
Lemma fastai_single_label_batch_is_not_the_stack :
  exists image1 image2 p1 p2 stacked out,
    np.iter (Examples.batch_of 2) = inr [image1; image2] /\
    FastAI.predict (Examples.fastai_adapter Examples.scalar_learner false)
      image1 = inr p1 /\
    FastAI.predict (Examples.fastai_adapter Examples.scalar_learner false)
      image2 = inr p2 /\
    np.array [p1; p2] = inr stacked /\
    FastAI.predict (Examples.fastai_adapter Examples.scalar_learner false)
      (Examples.batch_of 2) = inr out /\
    np.shape stacked = [2; 1] /\
    np.shape out = [2] /\
    out <> stacked.
Proof.
  do 6 eexists.
  split; [vm_compute; reflexivity|].
  split; [vm_compute; reflexivity|].
  split; [vm_compute; reflexivity|].
  split; [vm_compute; reflexivity|].
  split; [vm_compute; reflexivity|].
  split; [reflexivity|].
  split; [reflexivity|].
  discriminate.
Qed.

(** C6, as amended: on a 4-dimensional batch of N >= 1 images, the
    multilabel adapter's [predict] keeps the axes of the per-image
    prediction behind the batch axis, and so does [predict_proba], which is
    the same in both modes; on every 4-dimensional batch the single-label
    adapter's [predict] is the multilabel adapter's [predict] flattened, a
    vector. *)
Theorem fastai_multilabel_keeps_class_axes
  (model : object FastAI.learner) (batch : np.ndarray) :
  np.ndim batch = 4 ->
  let multi := FastAI.__init__ model true in
  let single := FastAI.__init__ model false in
  FastAI.predict single batch =
    (stacked <- FastAI.predict multi batch ;; ret (np.flatten stacked)) /\
  FastAI.predict_proba single batch = FastAI.predict_proba multi batch /\
  (forall image images stacked,
      np.iter batch = inr (image :: images) ->
      FastAI.predict multi batch = inr stacked ->
      exists p,
        FastAI.predict multi image = inr p /\
        np.shape stacked = length (image :: images) :: np.shape p) /\
  (forall image images stacked,
      np.iter batch = inr (image :: images) ->
      FastAI.predict_proba single batch = inr stacked ->
      exists p,
        FastAI.predict_proba single image = inr p /\
        np.shape stacked = length (image :: images) :: np.shape p) /\
  (forall out, FastAI.predict single batch = inr out -> np.ndim out = 1).
Proof.
  intros H4 multi single.
  destruct (fastai_batch_unfolded multi batch H4)
    as (images & Hit & Hdim & Hm & Hmp).
  destruct (fastai_batch_unfolded single batch H4)
    as (images' & Hit' & _ & Hs & Hsp).
  rewrite Hit in Hit'. injection Hit' as <-.
  assert (Hpred : for_append (FastAI.predict single) images =
                  for_append (FastAI.predict multi) images).
  { apply for_append_ext. intros r Hr. rewrite Forall_forall in Hdim.
    apply fastai_image_mode_free. rewrite (Hdim r Hr). discriminate. }
  assert (Hproba : for_append (FastAI.predict_proba single) images =
                   for_append (FastAI.predict_proba multi) images).
  { apply for_append_ext. intros r Hr. rewrite Forall_forall in Hdim.
    apply fastai_image_mode_free. rewrite (Hdim r Hr). discriminate. }
  repeat split.
  - rewrite Hs, Hm, Hpred. cbn.
    destruct (for_append _ images) as [e|ps]; [reflexivity|].
    destruct (np.array ps) as [e|a]; reflexivity.
  - rewrite Hsp, Hmp, Hproba. reflexivity.
  - intros image rest stacked Hit2 Hst. rewrite Hit in Hit2.
    injection Hit2 as ->. rewrite Hm, for_append_cons in Hst.
    cbv beta iota delta [bind ret Monad_either] in Hst.
    destruct (FastAI.predict multi image) as [e|p]; [discriminate|].
    destruct (for_append _ rest) as [e|ps] eqn:Hps; [discriminate|].
    destruct (np.array (p :: ps)) as [e|a] eqn:Ha; [discriminate|].
    injection Hst as <-. exists p. split; [reflexivity|].
    apply array_shape in Ha. destruct Ha as [-> _].
    apply for_append_length in Hps. simpl. rewrite Hps. reflexivity.
  - intros image rest stacked Hit2 Hst. rewrite Hit in Hit2.
    injection Hit2 as ->. rewrite Hsp, for_append_cons in Hst.
    cbv beta iota delta [bind ret Monad_either] in Hst.
    destruct (FastAI.predict_proba single image) as [e|p]; [discriminate|].
    destruct (for_append _ rest) as [e|ps] eqn:Hps; [discriminate|].
    destruct (np.array (p :: ps)) as [e|a] eqn:Ha; [discriminate|].
    injection Hst as <-. exists p. split; [reflexivity|].
    apply array_shape in Ha. destruct Ha as [-> _].
    apply for_append_length in Hps. simpl. rewrite Hps. reflexivity.
  - intros out Hout. rewrite Hs in Hout.
    cbv beta iota delta [bind ret Monad_either] in Hout.
    destruct (for_append (FastAI.predict single) images) as [e|ps];
      [discriminate|].
    destruct (np.array ps) as [e|a]; [discriminate|].
    unfold single in Hout. simpl in Hout.
    injection Hout as <-. reflexivity.
Qed.

(** An instance: a batch of two images and the learner with a boolean
    mask over two classes; the multilabel output has shape (2, 2). *)
Lemma fastai_multilabel_keeps_class_axes_witness :
  np.ndim (Examples.batch_of 2) = 4 /\
  FastAI.predict (Examples.fastai_adapter Examples.mask_learner false)
    (Examples.batch_of 2) =
  (stacked <-
     FastAI.predict (Examples.fastai_adapter Examples.mask_learner true)
       (Examples.batch_of 2) ;;
   ret (np.flatten stacked)) /\
  (exists image images stacked p,
      np.iter (Examples.batch_of 2) = inr (image :: images) /\
      FastAI.predict (Examples.fastai_adapter Examples.mask_learner true)
        (Examples.batch_of 2) = inr stacked /\
      FastAI.predict (Examples.fastai_adapter Examples.mask_learner true)
        image = inr p /\
      np.shape p = [2] /\
      np.shape stacked = [2; 2]).
Proof.
  pose proof (fastai_multilabel_keeps_class_axes
                (Examples.some_object "<class 'fastai.learner.Learner'>"
                   false None Examples.mask_learner)
                (Examples.batch_of 2) eq_refl) as H.
  cbv zeta in H. destruct H as (Hflat & _ & Hkeep & _).
  split; [reflexivity|]. split; [exact Hflat|].
  destruct (Hkeep _ _ _ eq_refl eq_refl) as (p & Hp & Hshape).
  do 3 eexists. exists p.
  split; [reflexivity|]. split; [reflexivity|]. split; [exact Hp|].
  assert (Hp2 : np.shape p = [2]).
  { vm_compute in Hp. injection Hp as <-. reflexivity. }
  split; [exact Hp2|]. rewrite Hp2 in Hshape. exact Hshape.
Defined.

(** C6 fails as stated: on a 4-dimensional batch of no image the multilabel
    adapter's [predict] returns the vector of shape (0,), the very array of
    the single-label mode, with no class axis, although on one image of
    that kind it returns shape (1, 2), a mask over two classes. *)
Lemma fastai_multilabel_empty_batch_has_no_class_axis :
  np.ndim (Examples.batch_of 0) = 4 /\
  FastAI.predict (Examples.fastai_adapter Examples.mask_learner true)
    (Examples.batch_of 0) =
    inr {| np.dtype_of := np.DFloat; np.shape := [0]; np.data := [] |} /\
  FastAI.predict (Examples.fastai_adapter Examples.mask_learner false)
    (Examples.batch_of 0) =
    inr {| np.dtype_of := np.DFloat; np.shape := [0]; np.data := [] |} /\
  FastAI.predict (Examples.fastai_adapter Examples.mask_learner true)
    (Examples.batch_of 1) =
    inr {| np.dtype_of := np.DInt; np.shape := [1; 2];
           np.data := [0; 1]%Q |}.
Proof.
  split; [reflexivity|].
  split; [vm_compute; reflexivity|].
  split; vm_compute; reflexivity.
Qed.

(* ===================================================================== *)
(** * Rows of a stacked array                                             *)
(* ===================================================================== *)

Lemma shape_eqb_refl (s : list nat) : np.shape_eqb s s = true.
Proof.
  unfold np.shape_eqb. rewrite Nat.eqb_refl. simpl.
  induction s as [|n s IH]; [reflexivity|].
  simpl. rewrite Nat.eqb_refl. exact IH.
Qed.

(** Chunk [i] of the concatenation of lists of one length [n] is list [i]. *)
Lemma concat_chunk {A : Type} (ls : list (list A)) (n i : nat) (l : list A) :
  Forall (fun x => length x = n) ls ->
  nth_error ls i = Some l ->
  firstn n (skipn (i * n) (concat ls)) = l.
Proof.
  intros Hall. revert i. induction Hall as [|x ls Hx _ IH]; intros i Hi.
  - destruct i; discriminate.
  - destruct i as [|i]; simpl in Hi |- *.
    + injection Hi as <-. rewrite firstn_app, <- Hx, firstn_all, Nat.sub_diag.
      simpl. apply app_nil_r.
    + rewrite skipn_app, skipn_all2 by lia. simpl.
      replace (n + i * n - length x) with (i * n) by lia.
      apply IH. exact Hi.
Qed.

Lemma firstn_1_skipn {A : Type} (l : list A) (i : nat) (x : A) :
  nth_error l i = Some x -> firstn 1 (skipn i l) = [x].
Proof.
  revert i. induction l as [|y l IH]; intros [|i] H; try discriminate.
  - injection H as <-. reflexivity.
  - simpl. apply IH. exact H.
Qed.

Lemma Forall2_nth_error_left {A B : Type} (R : A -> B -> Prop)
  (l : list A) (l' : list B) (i : nat) (a : A) :
  Forall2 R l l' -> nth_error l i = Some a ->
  exists b, nth_error l' i = Some b /\ R a b.
Proof.
  intros H. revert i. induction H as [|x y l l' Hxy _ IH]; intros [|i] Hi;
    try discriminate.
  - injection Hi as <-. exists y. split; [reflexivity | exact Hxy].
  - apply IH. exact Hi.
Qed.

(** Row [i] of the stack of well-formed arrays of one shape holds the
    entries of array [i]. *)
Lemma stack_row (cells : list np.ndarray) (s : list nat) (i : nat)
  (c : np.ndarray) :
  cells <> [] ->
  Forall (fun c => np.shape c = s /\ np.well_formed c) cells ->
  nth_error cells i = Some c ->
  exists P row,
    np.stack cells = inr P /\
    np.shape P = length cells :: s /\
    np.data P = concat (map np.data cells) /\
    np.getitem P i = inr row /\
    np.shape row = s /\
    np.data row = np.data c.
Proof.
  intros Hne Hall Hi.
  destruct cells as [|c0 cs]; [contradiction|]. clear Hne.
  assert (Hs0 : np.shape c0 = s) by (inversion Hall; tauto).
  unfold np.stack, np.array.
  replace (forallb (fun y => np.shape_eqb (np.shape y) (np.shape c0)) cs)
    with true.
  2:{ symmetry. apply forallb_forall. intros y Hy.
      rewrite Forall_forall in Hall.
      destruct (Hall y (or_intror Hy)) as [-> _]. rewrite Hs0.
      apply shape_eqb_refl. }
  eexists. eexists. split; [reflexivity|]. cbn [np.shape np.data].
  split; [rewrite Hs0; reflexivity|]. split; [reflexivity|].
  unfold np.getitem. cbn [np.shape].
  assert (Hlt : i < length (c0 :: cs)) by (apply nth_error_Some; congruence).
  apply Nat.ltb_lt in Hlt. rewrite Hlt. split; [reflexivity|].
  rewrite Hs0. unfold np.row. cbn [np.shape np.data].
  split; [reflexivity|].
  apply concat_chunk.
  - apply Forall_map. eapply Forall_impl; [|exact Hall].
    intros a [Ha Hw]. unfold np.well_formed in Hw. rewrite Hw, Ha.
    reflexivity.
  - apply map_nth_error. exact Hi.
Qed.

Lemma argmax_returns (c : np.ndarray) :
  np.data c <> [] -> exists k, np.argmax c = inr k.
Proof.
  unfold np.argmax, np.argmax_list.
  destruct (np.data c) as [|x xs]; [contradiction|].
  intros _. eexists. reflexivity.
Qed.

Lemma well_formed_nonempty (c : np.ndarray) :
  np.well_formed c -> np.size_of (np.shape c) <> 0 -> np.data c <> [].
Proof.
  unfold np.well_formed. intros Hw Hs Hd. rewrite Hd in Hw. simpl in Hw.
  congruence.
Qed.

(** Entry [i] of a vector, as the 0-dimensional array [v[i]]. *)
Lemma getitem_entry (d : np.dtype) (n : nat) (l : list Q) (i : nat) (x : Q) :
  n = length l ->
  nth_error l i = Some x ->
  np.getitem {| np.dtype_of := d; np.shape := [n]; np.data := l |} i =
  inr {| np.dtype_of := d; np.shape := []; np.data := [x] |}.
Proof.
  intros -> Hi. unfold np.getitem, np.row. cbn [np.shape np.data np.dtype_of].
  destruct (Nat.ltb_spec i (length l)) as [_|Hge].
  - cbn [np.size_of fold_right]. rewrite Nat.mul_1_r.
    rewrite (firstn_1_skipn _ _ Hi). reflexivity.
  - apply nth_error_None in Hge. congruence.
Qed.

(* ===================================================================== *)
(** * MLflow: classes and probabilities                                   *)
(* ===================================================================== *)

(** The cells that [lookup] finds are the values of the column. *)
Lemma lookup_column (df : pd.DataFrame) (name : string)
  (cells : list np.ndarray) :
  pd.lookup df name = Some cells ->
  exists col, pd.column df name = Some col /\ pd.values col = cells.
Proof.
  unfold pd.lookup. destruct (pd.column df name) as [col|]; [|discriminate].
  intros [= <-]. exists col. split; reflexivity.
Qed.

Lemma lookup_no_column (df : pd.DataFrame) (name : string) :
  pd.lookup df name = None -> pd.column df name = None.
Proof.
  unfold pd.lookup. destruct (pd.column df name); [discriminate|reflexivity].
Qed.

(** On a column of at least one row, [map] gives an integer vector. *)
Lemma map_values_of_rows (f : np.ndarray -> result nat) (col : pd.Series)
  (ks : list nat) :
  for_append f (pd.values col) = inr ks ->
  pd.values col <> [] ->
  pd.map_values f col =
    inr {| np.dtype_of := np.DInt; np.shape := [length ks];
           np.data := map np.of_nat ks |}.
Proof.
  intros Hks Hne. unfold pd.map_values. rewrite Hks.
  pose proof (for_append_length _ _ Hks) as Hlen.
  destruct ks as [|k ks]; [|reflexivity].
  destruct (pd.values col); [contradiction|discriminate].
Qed.

(** C5, as amended: when the frame that the native [predict] returns
    holds a [probs] column of N >= 1 well-formed, non-empty vectors of one
    shape, both operations return; [predict_proba] is the N vectors stacked, row [i]
    holding the entries of the [i]-th vector, and [predict(batch)[i]] is the
    arg-max of row [i] of [predict_proba(batch)]. *)
Theorem mlflow_predict_is_argmax_of_proba
  (self : Mlflow.WrappedMlflowAutomlImagesClassificationModel Mlflow.pyfunc)
  (dataset frame : pd.DataFrame) (cells : list np.ndarray) (s : list nat) :
  native (Mlflow._model self) dataset = inr frame ->
  pd.lookup frame "probs" = Some cells ->
  cells <> [] ->
  Forall (fun c => np.shape c = s /\ np.well_formed c) cells ->
  np.size_of s <> 0 ->
  exists P p,
    Mlflow.predict_proba self dataset = inr P /\
    Mlflow.predict self dataset = inr p /\
    np.shape P = [length cells] ++ s /\
    np.shape p = [length cells] /\
    forall i c, nth_error cells i = Some c ->
      exists row k,
        np.getitem P i = inr row /\
        np.shape row = s /\
        np.data row = np.data c /\
        np.argmax row = inr k /\
        np.getitem p i =
          inr {| np.dtype_of := np.DInt; np.shape := [];
                 np.data := [np.of_nat k] |}.
Proof.
  intros Hnative Hcol Hne Hall Hsize.
  (* predict: every cell has an arg-max *)
  assert (Hks : exists ks, for_append (fun x => np.argmax x) cells = inr ks).
  { apply for_append_returns. eapply Forall_impl; [|exact Hall].
    intros c [Hc Hw]. apply argmax_returns, well_formed_nonempty; [exact Hw|].
    rewrite Hc. exact Hsize. }
  destruct Hks as [ks Hks].
  pose proof (for_append_length _ _ Hks) as Hlen.
  pose proof (for_append_Forall2 _ _ Hks) as Hrel.
  (* predict_proba: the stack exists *)
  destruct cells as [|c0 cs] eqn:Ecells; [contradiction|].
  rewrite <- Ecells in *.
  assert (H0 : nth_error cells 0 = Some c0) by (rewrite Ecells; reflexivity).
  destruct (stack_row 0 Hne Hall H0) as (P & _ & HP & HshP & _).
  exists P.
  exists {| np.dtype_of := np.DInt; np.shape := [length ks];
            np.data := map np.of_nat ks |}.
  destruct (lookup_column _ _ Hcol) as (col & Hc & Hv).
  rewrite <- Hv in Hks, HP.
  unfold Mlflow.predict_proba, Mlflow.predict, Mlflow._mlflow_predict,
    pd.getattr_column, pd.loc_column.
  cbv beta iota delta [bind ret Monad_either]. rewrite Hnative, Hc.
  rewrite (map_values_of_rows _ _ Hks), HP by (rewrite Hv; exact Hne).
  rewrite Hv in HP.
  split; [reflexivity|]. split; [reflexivity|].
  split; [exact HshP|]. split; [cbn; rewrite Hlen; reflexivity|].
  intros i c Hi.
  destruct (stack_row i Hne Hall Hi)
    as (P' & row & HP' & _ & _ & Hrow & Hrs & Hrd).
  rewrite HP in HP'. injection HP' as <-.
  destruct (Forall2_nth_error_left i Hrel Hi) as (k & Hk & Hck).
  exists row, k. split; [exact Hrow|]. split; [exact Hrs|].
  split; [exact Hrd|]. split.
  - unfold np.argmax in *. rewrite Hrd. exact Hck.
  - apply getitem_entry.
    + rewrite length_map. reflexivity.
    + apply map_nth_error. exact Hk.
Qed.

(** An instance: a frame of two probability vectors over two classes. *)
Lemma mlflow_predict_is_argmax_of_proba_witness :
  exists P p,
    Mlflow.predict_proba Examples.mlflow_adapter Examples.images_frame
      = inr P /\
    Mlflow.predict Examples.mlflow_adapter Examples.images_frame = inr p /\
    np.shape P = [2; 2] /\
    np.shape p = [2] /\
    forall i c,
      nth_error
        [Examples.vec np.DFloat [0.1; 0.9]%Q;
         Examples.vec np.DFloat [0.8; 0.2]%Q] i = Some c ->
      exists row k,
        np.getitem P i = inr row /\
        np.shape row = [2] /\
        np.data row = np.data c /\
        np.argmax row = inr k /\
        np.getitem p i =
          inr {| np.dtype_of := np.DInt; np.shape := [];
                 np.data := [np.of_nat k] |}.
Proof.
  refine (mlflow_predict_is_argmax_of_proba
            Examples.mlflow_adapter Examples.images_frame
            (frame := Examples.probs_frame)
            (cells := [Examples.vec np.DFloat [0.1; 0.9]%Q;
                       Examples.vec np.DFloat [0.8; 0.2]%Q])
            (s := [2]) eq_refl eq_refl _ _ _).
  - discriminate.
  - repeat constructor.
  - discriminate.
Defined.

(** C5 fails as stated: when the native [predict] returns a frame whose
    [probs] column has no row, [predict] returns the empty vector, of the
    dtype of the column, and [predict_proba] raises [ValueError], since [np.stack] refuses an empty
    sequence. *)
Lemma mlflow_predict_proba_of_empty_frame_raises :
  native
    (Mlflow._model
       (Examples.mlflow_adapter_returning Examples.empty_probs_frame))
    Examples.empty_images_frame = inr Examples.empty_probs_frame /\
  pd.lookup Examples.empty_probs_frame "probs" = Some [] /\
  Mlflow.predict
    (Examples.mlflow_adapter_returning Examples.empty_probs_frame)
    Examples.empty_images_frame = inr (Examples.vec np.DFloat []) /\
  Mlflow.predict_proba
    (Examples.mlflow_adapter_returning Examples.empty_probs_frame)
    Examples.empty_images_frame = inl ValueError.
Proof. repeat split. Qed.

(* ===================================================================== *)
(** * Transformer: the axis of the arg-max                                *)
(* ===================================================================== *)

Lemma for_append_prod_singleton {B : Type} (f : nat * nat -> result B)
  (l : list nat) :
  for_append f (list_prod l [0]) = for_append (fun i => f (i, 0)) l.
Proof.
  induction l as [|x l IH]; [reflexivity|].
  simpl list_prod. rewrite !for_append_cons, IH. reflexivity.
Qed.

(** On a matrix, axis 1 is the last axis. *)
Lemma argmax_axis1_of_matrix (a : np.ndarray) :
  np.ndim a = 2 -> np.argmax_axis1 a = np.argmax_last_axis a.
Proof.
  unfold np.ndim, np.argmax_axis1, np.argmax_last_axis.
  destruct (np.shape a) as [|d0 [|d1 [|d2 rest]]]; try discriminate.
  intros _. cbn [rev app np.size_of fold_right seq].
  destruct (d1 =? 0); [reflexivity|].
  rewrite Nat.mul_1_r, for_append_prod_singleton.
  erewrite for_append_ext; [reflexivity|].
  intros i0 _. cbv beta iota.
  erewrite map_ext; [reflexivity|].
  intros i1. cbv beta. rewrite Nat.mul_1_r, Nat.add_0_r. reflexivity.
Qed.

(** C8, as amended: [predict_proba] returns the raw output of the native
    call unchanged, and [predict] returns the arg-max of the raw output
    over axis 1, which is the arg-max over its last axis when the raw
    output is 2-dimensional. *)
Theorem transformer_predict_is_argmax_over_axis_1
  (dataset : Type)
  (self : Transformer.WrappedTransformerImageClassificationModel
            (Transformer.call dataset))
  (ds : dataset) (raw : np.ndarray) :
  native (Transformer._model self) ds = inr raw ->
  Transformer.predict_proba self ds = inr raw /\
  Transformer.predict self ds = np.argmax_axis1 raw /\
  (np.ndim raw = 2 ->
   Transformer.predict self ds = np.argmax_last_axis raw).
Proof.
  intros H. unfold Transformer.predict_proba, Transformer.predict.
  rewrite H. cbn. split; [reflexivity|]. split; [reflexivity|].
  apply argmax_axis1_of_matrix.
Qed.

(** An instance: raw scores of two images over three classes. *)
Lemma transformer_predict_is_argmax_over_axis_1_witness :
  np.ndim Examples.raw_2d = 2 /\
  Transformer.predict_proba (Examples.transformer_adapter Examples.raw_2d)
    (Examples.batch_of 2) = inr Examples.raw_2d /\
  Transformer.predict (Examples.transformer_adapter Examples.raw_2d)
    (Examples.batch_of 2) = np.argmax_axis1 Examples.raw_2d /\
  (np.ndim Examples.raw_2d = 2 ->
   Transformer.predict (Examples.transformer_adapter Examples.raw_2d)
     (Examples.batch_of 2) = np.argmax_last_axis Examples.raw_2d).
Proof.
  split; [reflexivity|].
  apply (transformer_predict_is_argmax_over_axis_1
           (Examples.transformer_adapter Examples.raw_2d)
           (Examples.batch_of 2)).
  reflexivity.
Defined.

(** C8 fails as stated: for a raw output of shape (1, 2, 2) with entries
    [[0, 1], [0, 1]], [predict] returns the arg-max over axis 1, [[0, 0]],
    and the arg-max over the last axis is [[1, 1]]. *)
Lemma transformer_predict_is_not_argmax_over_last_axis :
  exists out last_axis,
    native
      (Transformer._model (Examples.transformer_adapter Examples.raw_3d))
      (Examples.batch_of 1) = inr Examples.raw_3d /\
    Transformer.predict (Examples.transformer_adapter Examples.raw_3d)
      (Examples.batch_of 1) = inr out /\
    np.argmax_last_axis Examples.raw_3d = inr last_axis /\
    np.data out = [0; 0]%Q /\
    np.data last_axis = [1; 1]%Q /\
    out <> last_axis.
Proof.
  do 2 eexists.
  split; [reflexivity|].
  split; [vm_compute; reflexivity|].
  split; [vm_compute; reflexivity|].
  split; [reflexivity|].
  split; [reflexivity|].
  discriminate.
Qed.

(* ===================================================================== *)
(** * Lengths of the predictions                                          *)
(* ===================================================================== *)

Lemma argmax_axis1_returns (a : np.ndarray) (d0 d1 : nat) (rest : list nat) :
  np.shape a = d0 :: d1 :: rest -> d1 <> 0 ->
  exists out, np.argmax_axis1 a = inr out /\ np.shape out = d0 :: rest.
Proof.
  intros Hs Hd. unfold np.argmax_axis1. rewrite Hs.
  destruct (Nat.eqb_spec d1 0) as [|_]; [contradiction|].
  destruct (for_append_returns
              (fun ij : nat * nat =>
                 let (i0, j) := ij in
                 k <- np.argmax_list
                        (map (fun i1 =>
                                nth ((i0 * d1 + i1) * np.size_of rest + j)
                                    (np.data a) 0%Q) (seq 0 d1)) ;;
                 ret (np.of_nat k))
              (l := list_prod (seq 0 d0) (seq 0 (np.size_of rest))))
    as [cells Hcells].
  - apply Forall_forall. intros [i0 j] _.
    destruct d1 as [|d1]; [contradiction|].
    eexists. cbn. reflexivity.
  - cbv zeta. rewrite Hcells. eexists. split; reflexivity.
Qed.

Lemma size_of_stack_of_entries (ps : list np.ndarray) (stacked : np.ndarray) :
  np.array ps = inr stacked ->
  (forall p, In p ps -> np.size_of (np.shape p) = 1) ->
  np.size_of (np.shape stacked) = length ps.
Proof.
  destruct ps as [|p ps]; intros Ha H1.
  - inversion Ha. reflexivity.
  - apply array_shape in Ha. destruct Ha as [-> _].
    cbn [np.size_of fold_right].
    change (fold_right Nat.mul 1 (np.shape p)) with (np.size_of (np.shape p)).
    rewrite (H1 p (or_introl eq_refl)). lia.
Qed.

(** C9, as amended.  Object detection: when the loop body returns on every
    image, both operations return one entry per image.  fastai, on a
    4-dimensional batch whose per-image results stack: [predict_proba]
    has length N; [predict] has length N in multilabel mode and, in
    single-label mode, as many entries as the stack has, which is N when
    every per-image prediction has one entry.  Transformer and MLflow: the
    length is that of the native output, N when the native model returns
    one row per input. *)
Theorem predictions_have_one_entry_per_image :
  (forall (env : torch.Imports)
          (self : ObjectDetection.WrappedObjectDetectionModel
                    ObjectDetection.detector)
          (batch : list np.ndarray) (t1 t2 : option Q),
      Forall (fun image => exists m,
                ObjectDetection.predict_image env self
                  (or_default t1 ObjectDetection.default_predict_threshold)
                  image = inr m) batch ->
      Forall (fun image => exists m,
                ObjectDetection.predict_image env self
                  (or_default t2
                     ObjectDetection.default_predict_proba_threshold)
                  image = inr m) batch ->
      exists p q,
        ObjectDetection.predict env self batch t1 = inr p /\
        length p = length batch /\
        ObjectDetection.predict_proba env self batch t2 = inr q /\
        length q = length batch)
  /\
  (forall (self : FastAI.WrappedFastAIImageClassificationModel FastAI.learner)
          (batch : np.ndarray) (images : list np.ndarray),
      np.ndim batch = 4 ->
      np.iter batch = inr images ->
      np.len batch = inr (length images) /\
      (forall ps stacked,
          for_append (FastAI.predict_proba self) images = inr ps ->
          np.array ps = inr stacked ->
          FastAI.predict_proba self batch = inr stacked /\
          np.len stacked = inr (length images)) /\
      (forall ps stacked,
          for_append (FastAI.predict self) images = inr ps ->
          np.array ps = inr stacked ->
          exists out,
            FastAI.predict self batch = inr out /\
            np.len out =
              inr (if FastAI._multilabel self then length images
                   else np.size_of (np.shape stacked)) /\
            ((forall p, In p ps -> np.size_of (np.shape p) = 1) ->
             np.len out = inr (length images))))
  /\
  (forall (self : Transformer.WrappedTransformerImageClassificationModel
                    (Transformer.call np.ndarray))
          (batch raw : np.ndarray) (n classes : nat) (rest : list nat),
      np.len batch = inr n ->
      native (Transformer._model self) batch = inr raw ->
      np.shape raw = n :: classes :: rest ->
      classes <> 0 ->
      exists out,
        Transformer.predict self batch = inr out /\
        np.len out = inr n /\
        Transformer.predict_proba self batch = inr raw /\
        np.len raw = inr n)
  /\
  (forall (self : Mlflow.WrappedMlflowAutomlImagesClassificationModel
                    Mlflow.pyfunc)
          (batch frame : pd.DataFrame) (cells : list np.ndarray)
          (s : list nat),
      native (Mlflow._model self) batch = inr frame ->
      pd.lookup frame "probs" = Some cells ->
      length cells = pd.nrows batch ->
      cells <> [] ->
      Forall (fun c => np.shape c = s /\ np.data c <> []) cells ->
      exists out stacked,
        Mlflow.predict self batch = inr out /\
        np.len out = inr (pd.nrows batch) /\
        Mlflow.predict_proba self batch = inr stacked /\
        np.len stacked = inr (pd.nrows batch)).
Proof.
  split; [|split; [|split]].
  - (* object detection *)
    intros env self batch t1 t2 H1 H2.
    destruct (for_append_returns _ H1) as [p Hp].
    destruct (for_append_returns _ H2) as [p2 Hp2].
    exists p, (map (map trailing) p2).
    split; [exact Hp|]. split; [apply (for_append_length _ _ Hp)|].
    destruct t2 as [t2|]; cbn [or_default] in Hp2.
    + pose proof (predict_proba_at env self batch t2) as E.
      unfold ObjectDetection.predict at 1 in E. cbn [or_default] in E.
      rewrite Hp2 in E. split; [exact E|].
      rewrite length_map. apply (for_append_length _ _ Hp2).
    + pose proof (predict_proba_at env self batch
                    ObjectDetection.default_predict_proba_threshold) as E.
      unfold ObjectDetection.predict at 1 in E. cbn [or_default] in E.
      rewrite Hp2 in E. split; [exact E|].
      rewrite length_map. apply (for_append_length _ _ Hp2).
  - (* fastai *)
    intros self batch images H4 Hit.
    destruct (fastai_batch_unfolded self batch H4)
      as (images' & Hit' & _ & Hp & Hpp).
    rewrite Hit in Hit'. injection Hit' as <-.
    split; [apply (iter_rows _ Hit)|]. split.
    + intros ps stacked Hps Ha. rewrite Hpp, Hps. cbn. rewrite Ha.
      split; [reflexivity|].
      rewrite (array_len _ Ha). f_equal. apply (for_append_length _ _ Hps).
    + intros ps stacked Hps Ha. rewrite Hp, Hps. cbn. rewrite Ha.
      pose proof (for_append_length _ _ Hps) as Hlen.
      destruct (FastAI._multilabel self).
      * exists stacked. split; [reflexivity|].
        rewrite (array_len _ Ha), Hlen. split; reflexivity.
      * exists (np.flatten stacked). split; [reflexivity|].
        split; [reflexivity|].
        intros H1. unfold np.len, np.flatten. cbn [np.shape].
        rewrite (size_of_stack_of_entries _ Ha H1), Hlen. reflexivity.
  - (* transformer *)
    intros self batch raw n classes rest Hn Hraw Hs Hc.
    destruct (argmax_axis1_returns _ Hs Hc) as (out & Hout & Hso).
    exists out. unfold Transformer.predict, Transformer.predict_proba.
    rewrite Hraw. cbn. split; [exact Hout|].
    unfold np.len. rewrite Hso, Hs. repeat split.
  - (* MLflow *)
    intros self batch frame cells s Hnative Hcol Hrows Hne Hall.
    assert (Hks : exists ks, for_append (fun x => np.argmax x) cells = inr ks).
    { apply for_append_returns. eapply Forall_impl; [|exact Hall].
      intros c [_ Hd]. apply argmax_returns. exact Hd. }
    destruct Hks as [ks Hks].
    pose proof (for_append_length _ _ Hks) as Hlen.
    destruct cells as [|c0 cs] eqn:Ecells; [contradiction|].
    rewrite <- Ecells in *.
    assert (Hst : exists stacked, np.stack cells = inr stacked /\
                                  np.len stacked = inr (length cells)).
    { rewrite Ecells. unfold np.stack, np.array.
      replace (forallb (fun y => np.shape_eqb (np.shape y) (np.shape c0)) cs)
        with true.
      - eexists. split; reflexivity.
      - symmetry. apply forallb_forall. intros y Hy.
        rewrite Ecells in Hall. rewrite Forall_forall in Hall.
        destruct (Hall y (or_intror Hy)) as [-> _].
        destruct (Hall c0 (or_introl eq_refl)) as [-> _].
        apply shape_eqb_refl. }
    destruct Hst as (stacked & Hst & Hsl).
    exists {| np.dtype_of := np.DInt; np.shape := [length ks];
              np.data := map np.of_nat ks |}, stacked.
    destruct (lookup_column _ _ Hcol) as (col & Hc & Hv).
    rewrite <- Hv in Hks, Hst.
    unfold Mlflow.predict_proba, Mlflow.predict, Mlflow._mlflow_predict,
      pd.getattr_column, pd.loc_column.
    cbv beta iota delta [bind ret Monad_either]. rewrite Hnative, Hc.
    rewrite (map_values_of_rows _ _ Hks), Hst by (rewrite Hv; exact Hne).
    unfold np.len at 1. cbn [np.shape].
    rewrite <- Hrows, Hsl, Hlen. repeat split.
Qed.

(** Instances: the detector on two images, the transformer on two images. *)
Lemma predictions_have_one_entry_per_image_witness :
  (exists p q,
      ObjectDetection.predict Examples.od_env Examples.od_adapter
        [Examples.od_image; Examples.od_image] None = inr p /\
      length p = 2 /\
      ObjectDetection.predict_proba Examples.od_env Examples.od_adapter
        [Examples.od_image; Examples.od_image] None = inr q /\
      length q = 2)
  /\
  (exists out,
      Transformer.predict (Examples.transformer_adapter Examples.raw_2d)
        (Examples.batch_of 2) = inr out /\
      np.len out = inr 2 /\
      Transformer.predict_proba (Examples.transformer_adapter Examples.raw_2d)
        (Examples.batch_of 2) = inr Examples.raw_2d /\
      np.len Examples.raw_2d = inr 2).
Proof.
  split.
  - refine (proj1 predictions_have_one_entry_per_image
              Examples.od_env Examples.od_adapter
              [Examples.od_image; Examples.od_image] None None _ _).
    + repeat constructor; eexists; vm_compute; reflexivity.
    + repeat constructor; eexists; vm_compute; reflexivity.
  - refine (proj1 (proj2 (proj2 predictions_have_one_entry_per_image))
              (Examples.transformer_adapter Examples.raw_2d)
              (Examples.batch_of 2) Examples.raw_2d 2 3 [] eq_refl eq_refl
              eq_refl _).
    discriminate.
Defined.

(** C9 fails as stated: in single-label mode, on a batch of three images
    and a learner whose discrete prediction has two entries per image,
    [predict] returns six entries. *)
Lemma fastai_single_label_length_is_not_batch_size :
  exists out,
    np.len (Examples.batch_of 3) = inr 3 /\
    FastAI.predict (Examples.fastai_adapter Examples.mask_learner false)
      (Examples.batch_of 3) = inr out /\
    np.len out = inr 6.
Proof.
  eexists.
  split; [reflexivity|].
  split; [vm_compute; reflexivity|].
  reflexivity.
Qed.

(* ===================================================================== *)
(** * Object detection: when the loop body returns                        *)
(* ===================================================================== *)

Lemma index_returns {A : Type} (t : list A) (keep : list nat) (d : A) :
  Forall (fun i => i < length t) keep ->
  torch.index t keep = inr (map (fun i => nth i t d) keep).
Proof.
  intros H. unfold torch.index. apply for_append_map.
  intros i Hi. rewrite Forall_forall in H. specialize (H i Hi).
  unfold Py.getitem. rewrite (nth_error_nth' t d H). reflexivity.
Qed.

Lemma cat2_returns (a b : torch.matrix) :
  length a = length b ->
  exists out, torch.cat2 a b = inr out /\ length out = length a.
Proof.
  intros H. unfold torch.cat2. rewrite H, Nat.eqb_refl.
  eexists. split; [reflexivity|].
  rewrite length_map, length_combine. lia.
Qed.

(** With [ToTensor] and [nms] bound, a detector that returns a result for
    the image and indices that [nms] keeps within range, the body returns
    one row per kept index, and the trailing entries of the rows are the
    kept scores, in the order of the kept indices. *)
Lemma predict_image_returns
  (env : torch.Imports)
  (self : ObjectDetection.WrappedObjectDetectionModel ObjectDetection.detector)
  (t : Q) (image : np.ndarray)
  (to_tensor : np.ndarray -> torch.Tensor)
  (nms : torch.matrix -> torch.vector -> Q -> result (list nat))
  (d : torch.Detections) (dets : list torch.Detections) (keep : list nat) :
  torch.ToTensor env = Some to_tensor ->
  torch.nms env = Some nms ->
  native (ObjectDetection._model self)
    (torch.unsqueeze0
       (torch.to (to_tensor image) (ObjectDetection._device self)))
    = inr (d :: dets) ->
  nms (torch.boxes d) (torch.scores d) t = inr keep ->
  Forall (fun i => i < length (torch.boxes d)) keep ->
  Forall (fun i => i < length (torch.scores d)) keep ->
  Forall (fun i => i < length (torch.labels d)) keep ->
  exists m,
    ObjectDetection.predict_image env self t image = inr m /\
    length m = length keep /\
    map trailing m = map (fun i => nth i (torch.scores d) 0%Q) keep.
Proof.
  intros Htt Hnms Hnat Hkeep Hb Hs Hl.
  unfold ObjectDetection.predict_image.
  rewrite Htt, Hnms. cbn. rewrite Hnat. cbn. rewrite Hkeep.
  rewrite (index_returns (torch.boxes d) [] Hb),
    (index_returns (torch.scores d) 0%Q Hs),
    (index_returns (torch.labels d) 0%Q Hl).
  unfold torch.cat_dim1.
  destruct (cat2_returns
              (torch.unsqueeze1
                 (map (fun i => nth i (torch.labels d) 0%Q) keep))
              (map (fun i => nth i (torch.boxes d) []) keep))
    as (ab & Hab & Hlab).
  { unfold torch.unsqueeze1. rewrite !length_map. reflexivity. }
  destruct (cat2_returns ab
              (torch.unsqueeze1
                 (map (fun i => nth i (torch.scores d) 0%Q) keep)))
    as (m & Hm & Hlm).
  { rewrite Hlab. unfold torch.unsqueeze1. rewrite !length_map.
    reflexivity. }
  rewrite Hab, Hm. exists m. split; [reflexivity|].
  pose proof (cat2_scores_rows _ _ Hm) as [_ Htr]. split; [|exact Htr].
  rewrite Hlm, Hlab. unfold torch.unsqueeze1. rewrite !length_map.
  reflexivity.
Qed.

(* ===================================================================== *)
(** * The factory: which adapter is chosen                                *)
(* ===================================================================== *)

Section FactoryRules.
Variables B raw_examples dataset_wrapper eval_function : Type.
Variable env : torch.Imports.
Variable pkg : Factory.Package B raw_examples dataset_wrapper eval_function.
Variable model : object B.
Variable examples : Factory.examples_t raw_examples dataset_wrapper.
Variable is_function : bool.

(** The framework-native path is left with the local variable [model]
    still bound to the input model: the name [nn] is unbound, or the model
    is no [nn.Module], or the constructor of [WrappedPytorchModel] raises
    one of the two exceptions that the [try] statement catches. *)
Lemma native_path_not_taken :
  torch.torch_bound env = false \/
  isinstance_nn_Module model = false \/
  (exists e, Factory.WrappedPytorchModel pkg model true = inl e /\
             (e = NameError \/ e = AttributeError)) ->
  Factory._wrap_image_model env pkg model examples
    Factory.IMAGE_CLASSIFICATION is_function =
  (w <- Factory.classify (Factory.Plain model) model ;;
   ret (w, Factory.IMAGE_CLASSIFICATION)).
Proof.
  unfold Factory._wrap_image_model, Factory.try_pytorch.
  intros [H|[H|(e & H & [->| ->])]].
  - rewrite H. reflexivity.
  - rewrite H. destruct (torch.torch_bound env); reflexivity.
  - rewrite H.
    destruct (torch.torch_bound env), (isinstance_nn_Module model);
      reflexivity.
  - rewrite H.
    destruct (torch.torch_bound env), (isinstance_nn_Module model);
      reflexivity.
Qed.

(** The evaluation probe raises a caught exception after [model] was
    rebound to the [WrappedPytorchModel]: the statements after the [try]
    statement test the wrapper. *)
Lemma probe_failure_tests_wrapper (w : object B) (e : exn) :
  torch.torch_bound env = true ->
  isinstance_nn_Module model = true ->
  Factory.WrappedPytorchModel pkg model true = inr w ->
  snd (Factory.try_pytorch env pkg model examples
         Factory.IMAGE_CLASSIFICATION) = inl e ->
  e = NameError \/ e = AttributeError ->
  Factory._wrap_image_model env pkg model examples
    Factory.IMAGE_CLASSIFICATION is_function =
  (a <- Factory.classify (Factory.Plain model) w ;;
   ret (a, Factory.IMAGE_CLASSIFICATION)).
Proof.
  unfold Factory._wrap_image_model, Factory.try_pytorch.
  intros Ht Hm Hw. rewrite Ht, Hm, Hw. cbn [snd].
  intros -> [-> | ->]; reflexivity.
Qed.

(** In that case a wrapper whose type text lacks the fastai suffix never
    yields the fastai adapter, whatever the type text of the model. *)
Lemma probe_failure_never_fastai (w : object B) (e : exn)
  (a : Factory.wrapped B) (t : Factory.ModelTask) :
  torch.torch_bound env = true ->
  isinstance_nn_Module model = true ->
  Factory.WrappedPytorchModel pkg model true = inr w ->
  snd (Factory.try_pytorch env pkg model examples
         Factory.IMAGE_CLASSIFICATION) = inl e ->
  e = NameError \/ e = AttributeError ->
  Factory._is_fastai_model w = false ->
  Factory._wrap_image_model env pkg model examples
    Factory.IMAGE_CLASSIFICATION is_function = inr (a, t) ->
  forall f, a <> Factory.FastAIAdapter f.
Proof.
  intros Ht Hm Hw He Hexn Hfast.
  rewrite (probe_failure_tests_wrapper Ht Hm Hw He Hexn).
  unfold Factory.classify. rewrite Hfast.
  destruct (_model_impl w) as [impl|].
  - destruct (python_model_type impl) as [ty|]; [|discriminate].
    destruct (endswith ty Factory.MLFLOW_AUTOML_SUFFIX);
      intros H f; inversion H; discriminate.
  - intros H f. inversion H. discriminate.
Qed.

End FactoryRules.

(** C2, as amended: for single-label image classification, a model on
    which the framework-native path is not taken, whose type text lacks the
    fastai suffix and which has no attribute [_model_impl] is wrapped in the
    generic-transformer adapter; for multi-label image classification the
    fastai adapter in multilabel mode is built for a fastai model and the
    model is returned as it is otherwise; for object detection the
    constructor of the object-detection adapter is run on the model,
    whatever its kind, and its adapter is returned when [torch] is bound
    and the model has [eval]. *)
Theorem factory_adapter_rules
  (B raw_examples dataset_wrapper eval_function : Type)
  (env : torch.Imports)
  (pkg : Factory.Package B raw_examples dataset_wrapper eval_function)
  (model : object B)
  (examples : Factory.examples_t raw_examples dataset_wrapper)
  (is_function : bool) :
  ((torch.torch_bound env = false \/
    isinstance_nn_Module model = false \/
    (exists e, Factory.WrappedPytorchModel pkg model true = inl e /\
               (e = NameError \/ e = AttributeError))) ->
   Factory._is_fastai_model model = false ->
   _model_impl model = None ->
   Factory._wrap_image_model env pkg model examples
     Factory.IMAGE_CLASSIFICATION is_function =
   inr (Factory.TransformerAdapter (Transformer.__init__ model),
        Factory.IMAGE_CLASSIFICATION))
  /\
  Factory._wrap_image_model env pkg model examples
    Factory.MULTILABEL_IMAGE_CLASSIFICATION is_function =
  inr (if Factory._is_fastai_model model
       then Factory.FastAIAdapter (FastAI.__init__ model true)
       else Factory.Plain model,
       Factory.MULTILABEL_IMAGE_CLASSIFICATION)
  /\
  Factory._wrap_image_model env pkg model examples
    Factory.OBJECT_DETECTION is_function =
  (w <- ObjectDetection.__init__ env model ;;
   ret (Factory.ObjectDetectionAdapter w, Factory.OBJECT_DETECTION))
  /\
  (torch.torch_bound env = true -> has_eval model = true ->
   exists w,
     Factory._wrap_image_model env pkg model examples
       Factory.OBJECT_DETECTION is_function =
     inr (Factory.ObjectDetectionAdapter w, Factory.OBJECT_DETECTION) /\
     Obj.eval model = inr (ObjectDetection._model w) /\
     training (ObjectDetection._model w) = false /\
     native (ObjectDetection._model w) = native model).
Proof.
  split; [|split; [|split]].
  - intros Hpath Hfast Himpl.
    rewrite (@native_path_not_taken _ _ _ _ env pkg model examples
               is_function Hpath).
    unfold Factory.classify. rewrite Hfast, Himpl. reflexivity.
  - unfold Factory._wrap_image_model.
    destruct (Factory._is_fastai_model model); reflexivity.
  - reflexivity.
  - intros Ht He. unfold Factory._wrap_image_model, ObjectDetection.__init__,
      Obj.eval.
    rewrite Ht, He. cbn. eexists. repeat split.
Qed.

(** An instance: a pipeline object, with [torch] not imported. *)
Lemma factory_adapter_rules_witness :
  Factory._wrap_image_model Examples.no_torch Examples.failing_probe
    Examples.pipeline_model (Factory.NotDatasetWrapper unit tt)
    Factory.IMAGE_CLASSIFICATION false =
  inr (Factory.TransformerAdapter
         (Transformer.__init__ Examples.pipeline_model),
       Factory.IMAGE_CLASSIFICATION).
Proof.
  refine (proj1 (factory_adapter_rules Examples.no_torch
                   Examples.failing_probe Examples.pipeline_model
                   (Factory.NotDatasetWrapper unit tt) false) _ _ _).
  - left. reflexivity.
  - reflexivity.
  - reflexivity.
Defined.

(** C2 fails as stated: an MLflow pyfunc model of a custom Python class is
    no [nn.Module], no fastai learner and no AutoML-vision model; for
    single-label image classification the factory returns it as it is,
    not wrapped in the generic-transformer adapter. *)
Lemma other_mlflow_model_is_not_wrapped :
  isinstance_nn_Module Examples.mlflow_custom_model = false /\
  Factory._is_fastai_model Examples.mlflow_custom_model = false /\
  is_automl_vision Examples.mlflow_custom_model = false /\
  Factory._wrap_image_model Examples.od_env Examples.failing_probe
    Examples.mlflow_custom_model (Factory.NotDatasetWrapper unit tt)
    Factory.IMAGE_CLASSIFICATION false =
  inr (Factory.Plain Examples.mlflow_custom_model,
       Factory.IMAGE_CLASSIFICATION) /\
  Factory.Plain Examples.mlflow_custom_model <>
  Factory.TransformerAdapter
    (Transformer.__init__ Examples.mlflow_custom_model).
Proof.
  split; [reflexivity|].
  split; [reflexivity|].
  split; [reflexivity|].
  split; [reflexivity|].
  discriminate.
Qed.

(** X21: when the detection chain runs to its end and picks no adapter,
    the factory returns the input model itself and the input task.  The
    chain does so for a task outside the three image tasks, for multi-label
    classification of a model that is no fastai learner, and for
    single-label classification of a model off the framework-native path
    that is no fastai learner and has a [_model_impl] whose [python_model]
    is of another type than the AutoML-vision wrapper. *)
Theorem factory_returns_input_when_no_rule_applies
  (B raw_examples dataset_wrapper eval_function : Type)
  (env : torch.Imports)
  (pkg : Factory.Package B raw_examples dataset_wrapper eval_function)
  (model : object B)
  (examples : Factory.examples_t raw_examples dataset_wrapper)
  (task : Factory.ModelTask) (is_function : bool) :
  no_adapter_rule env model task = true ->
  Factory._wrap_image_model env pkg model examples task is_function =
  inr (Factory.Plain model, task).
Proof.
  destruct task as [| | |name]; cbn [no_adapter_rule]; intros H.
  - apply andb_prop in H. destruct H as [H Himpl].
    apply andb_prop in H. destruct H as [Hpath Hfast].
    apply negb_true_iff in Hfast.
    rewrite (@native_path_not_taken _ _ _ _ env pkg model examples
               is_function).
    + unfold Factory.classify. rewrite Hfast.
      destruct (_model_impl model) as [impl|]; [|discriminate].
      destruct (python_model_type impl) as [t|]; [|discriminate].
      apply negb_true_iff in Himpl. rewrite Himpl. reflexivity.
    + apply orb_prop in Hpath.
      destruct Hpath as [Hp|Hp]; apply negb_true_iff in Hp; auto.
  - apply negb_true_iff in H. unfold Factory._wrap_image_model.
    rewrite H. reflexivity.
  - discriminate.
  - reflexivity.
Qed.

(** An instance: an MLflow pyfunc model of a custom Python class. *)
Lemma factory_returns_input_when_no_rule_applies_witness :
  no_adapter_rule Examples.od_env Examples.mlflow_custom_model
    Factory.IMAGE_CLASSIFICATION = true /\
  Factory._wrap_image_model Examples.od_env Examples.failing_probe
    Examples.mlflow_custom_model (Factory.NotDatasetWrapper unit tt)
    Factory.IMAGE_CLASSIFICATION false =
  inr (Factory.Plain Examples.mlflow_custom_model,
       Factory.IMAGE_CLASSIFICATION).
Proof.
  split; [reflexivity|].
  apply (factory_returns_input_when_no_rule_applies Examples.od_env
           Examples.failing_probe Examples.mlflow_custom_model
           (Factory.NotDatasetWrapper unit tt)
           Factory.IMAGE_CLASSIFICATION false).
  reflexivity.
Defined.

(** C4 fails on the code: an MLflow pyfunc model whose [_model_impl] has
    no attribute [python_model] is no [nn.Module], no fastai learner and no
    AutoML-vision model, so no adapter rule matches it; for single-label
    image classification the factory reads [_model_impl.python_model]
    outside the [try] statement and raises [AttributeError] instead of
    returning the model, while it returns a model whose [python_model] is
    of another type as it is. *)
Lemma mlflow_model_without_python_model_raises :
  isinstance_nn_Module Examples.mlflow_flavor_model = false /\
  Factory._is_fastai_model Examples.mlflow_flavor_model = false /\
  is_automl_vision Examples.mlflow_flavor_model = false /\
  _model_impl Examples.mlflow_flavor_model <> None /\
  Factory._wrap_image_model Examples.od_env Examples.failing_probe
    Examples.mlflow_flavor_model (Factory.NotDatasetWrapper unit tt)
    Factory.IMAGE_CLASSIFICATION false = inl AttributeError /\
  Factory._wrap_image_model Examples.od_env Examples.failing_probe
    Examples.mlflow_custom_model (Factory.NotDatasetWrapper unit tt)
    Factory.IMAGE_CLASSIFICATION false =
  inr (Factory.Plain Examples.mlflow_custom_model,
       Factory.IMAGE_CLASSIFICATION).
Proof.
  split; [reflexivity|].
  split; [reflexivity|].
  split; [reflexivity|].
  split; [discriminate|].
  split; reflexivity.
Qed.

(** C7 fails on the code: the model is an [nn.Module] and its type text
    ends in the fastai suffix, and the evaluation probe raises
    [AttributeError]; the exception is caught, but [model] is then bound
    to the [WrappedPytorchModel], whose type text lacks the suffix, and
    the factory returns the generic-transformer adapter around that
    wrapper, not the fastai adapter. *)
Theorem probe_failure_skips_fastai_branch :
  isinstance_nn_Module Examples.native_fastai_model = true /\
  Factory._is_fastai_model Examples.native_fastai_model = true /\
  snd (Factory.try_pytorch Examples.od_env Examples.failing_probe
         Examples.native_fastai_model (Factory.NotDatasetWrapper unit tt)
         Factory.IMAGE_CLASSIFICATION) = inl AttributeError /\
  Factory._wrap_image_model Examples.od_env Examples.failing_probe
    Examples.native_fastai_model (Factory.NotDatasetWrapper unit tt)
    Factory.IMAGE_CLASSIFICATION false =
  inr (Factory.TransformerAdapter
         (Transformer.__init__
            (Examples.some_object Examples.pytorch_wrapper_repr false None
               tt)),
       Factory.IMAGE_CLASSIFICATION) /\
  Factory._wrap_image_model Examples.no_torch Examples.failing_probe
    Examples.native_fastai_model (Factory.NotDatasetWrapper unit tt)
    Factory.IMAGE_CLASSIFICATION false =
  inr (Factory.FastAIAdapter
         (FastAI.__init__ Examples.native_fastai_model false),
       Factory.IMAGE_CLASSIFICATION).
Proof. repeat split. Qed.

(* ===================================================================== *)
(** * Object detection: rows, batches and errors                          *)
(* ===================================================================== *)

Lemma for_append_app {A B : Type} (f : A -> result B) (l1 l2 : list A) :
  for_append f (l1 ++ l2) =
  (ys1 <- for_append f l1 ;;
   ys2 <- for_append f l2 ;;
   ret (ys1 ++ ys2)).
Proof.
  induction l1 as [|x l1 IH].
  - cbn. destruct (for_append f l2); reflexivity.
  - rewrite <- app_comm_cons, !for_append_cons, IH. cbn.
    destruct (f x) as [e|y]; [reflexivity|].
    destruct (for_append f l1) as [e|ys1]; [reflexivity|].
    destruct (for_append f l2) as [e|ys2]; reflexivity.
Qed.

Lemma combine_map_map {A B C : Type} (f : A -> B) (g : A -> C) (l : list A) :
  combine (map f l) (map g l) = map (fun x => (f x, g x)) l.
Proof.
  induction l as [|x l IH]; [reflexivity|]. simpl. rewrite IH. reflexivity.
Qed.

(** X1: the rows that [predict] returns for an image are, in the order of
    the indices [keep] that [nms] returns, the label, the box and the
    score of detection [i]: [label_i, box_i..., score_i]. *)
Theorem detection_rows_are_label_box_score
  (env : torch.Imports)
  (self : ObjectDetection.WrappedObjectDetectionModel ObjectDetection.detector)
  (t : Q) (image : np.ndarray)
  (to_tensor : np.ndarray -> torch.Tensor)
  (nms : torch.matrix -> torch.vector -> Q -> result (list nat))
  (d : torch.Detections) (dets : list torch.Detections) (keep : list nat) :
  torch.ToTensor env = Some to_tensor ->
  torch.nms env = Some nms ->
  native (ObjectDetection._model self)
    (torch.unsqueeze0
       (torch.to (to_tensor image) (ObjectDetection._device self)))
    = inr (d :: dets) ->
  nms (torch.boxes d) (torch.scores d) t = inr keep ->
  Forall (fun i => i < length (torch.boxes d)) keep ->
  Forall (fun i => i < length (torch.scores d)) keep ->
  Forall (fun i => i < length (torch.labels d)) keep ->
  ObjectDetection.predict env self [image] (Some t) =
  inr [map (fun i => [nth i (torch.labels d) 0%Q]
                     ++ nth i (torch.boxes d) []
                     ++ [nth i (torch.scores d) 0%Q]) keep].
Proof.
  intros Htt Hnms Hnat Hkeep Hb Hs Hl.
  unfold ObjectDetection.predict. cbn [or_default].
  rewrite for_append_cons.
  unfold ObjectDetection.predict_image.
  rewrite Htt, Hnms. cbn. rewrite Hnat. cbn. rewrite Hkeep.
  rewrite (index_returns (torch.boxes d) [] Hb),
    (index_returns (torch.scores d) 0%Q Hs),
    (index_returns (torch.labels d) 0%Q Hl).
  unfold torch.cat_dim1, torch.cat2, torch.unsqueeze1.
  rewrite !map_map, !length_map, Nat.eqb_refl. cbn.
  rewrite combine_map_map, map_map, length_map, Nat.eqb_refl.
  rewrite combine_map_map, map_map. reflexivity.
Qed.

(** An instance: the two overlapping boxes at threshold 0.1. *)
Lemma detection_rows_are_label_box_score_witness :
  ObjectDetection.predict Examples.od_env Examples.od_adapter
    [Examples.od_image] (Some 0.1%Q) =
  inr [[[2; 17; 0; 37; 20; 0.9]; [1; 0; 0; 20; 20; 0.8]]%Q].
Proof.
  refine (detection_rows_are_label_box_score
            Examples.od_env Examples.od_adapter 0.1%Q
            Examples.od_image
            (d := {| torch.boxes := [[0; 0; 20; 20]; [17; 0; 37; 20]]%Q;
                     torch.scores := [0.8; 0.9]%Q;
                     torch.labels := [1; 2]%Q |})
            (dets := []) (keep := [1; 0])
            eq_refl eq_refl eq_refl _ _ _ _).
  - vm_compute. reflexivity.
  - repeat constructor.
  - repeat constructor.
  - repeat constructor.
Defined.

Lemma predict_proba_any
  (env : torch.Imports)
  (self : ObjectDetection.WrappedObjectDetectionModel ObjectDetection.detector)
  (dataset : list np.ndarray) (t : option Q) :
  ObjectDetection.predict_proba env self dataset t =
  match
    for_append
      (ObjectDetection.predict_image env self
         (or_default t ObjectDetection.default_predict_proba_threshold))
      dataset
  with
  | inr p => inr (map (map trailing) p)
  | inl e => inl e
  end.
Proof.
  destruct t as [t|].
  - exact (predict_proba_at env self dataset t).
  - exact (predict_proba_at env self dataset
             ObjectDetection.default_predict_proba_threshold).
Qed.

(** X2: detection is image by image: the rows for a batch [d1 ++ d2] are
    the rows for [d1] followed by the rows for [d2], for [predict] and for
    [predict_proba], and an exception on [d1] comes before one on [d2]. *)
Theorem detection_of_concatenated_batches
  (env : torch.Imports)
  (self : ObjectDetection.WrappedObjectDetectionModel ObjectDetection.detector)
  (d1 d2 : list np.ndarray) (t : option Q) :
  ObjectDetection.predict env self (d1 ++ d2) t =
    (p1 <- ObjectDetection.predict env self d1 t ;;
     p2 <- ObjectDetection.predict env self d2 t ;;
     ret (p1 ++ p2))
  /\
  ObjectDetection.predict_proba env self (d1 ++ d2) t =
    (q1 <- ObjectDetection.predict_proba env self d1 t ;;
     q2 <- ObjectDetection.predict_proba env self d2 t ;;
     ret (q1 ++ q2)).
Proof.
  split.
  - unfold ObjectDetection.predict. apply for_append_app.
  - rewrite !predict_proba_any, for_append_app. cbn.
    destruct (for_append _ d1) as [e|p1]; [reflexivity|].
    destruct (for_append _ d2) as [e|p2]; [reflexivity|].
    rewrite map_app. reflexivity.
Qed.

(** X3: the first image on which detection raises ends the call: its
    exception reaches the caller of [predict] and of [predict_proba],
    whatever images follow, and no row of the images before it is
    returned. *)
Theorem detection_stops_at_first_failure
  (env : torch.Imports)
  (self : ObjectDetection.WrappedObjectDetectionModel ObjectDetection.detector)
  (before after : list np.ndarray) (image : np.ndarray) (t : Q) (e : exn) :
  Forall (fun im => exists m,
            ObjectDetection.predict_image env self t im = inr m) before ->
  ObjectDetection.predict_image env self t image = inl e ->
  ObjectDetection.predict env self (before ++ image :: after) (Some t)
    = inl e /\
  ObjectDetection.predict_proba env self (before ++ image :: after) (Some t)
    = inl e.
Proof.
  intros Hbefore Himage.
  assert (H : for_append (ObjectDetection.predict_image env self t)
                (before ++ image :: after) = inl e).
  { destruct (for_append_returns _ Hbefore) as [ms Hms].
    rewrite for_append_app, Hms, for_append_cons, Himage. reflexivity. }
  split.
  - exact H.
  - rewrite predict_proba_any. cbn [or_default]. rewrite H. reflexivity.
Qed.

(** An instance: the second of three images makes the detector raise. *)
Lemma detection_stops_at_first_failure_witness :
  ObjectDetection.predict Examples.od_env
    (Cases.detection_adapter Cases.picky_detector)
    ([Examples.od_image] ++ Cases.bad_image :: [Examples.od_image])
    (Some 0.1%Q) = inl RuntimeError /\
  ObjectDetection.predict_proba Examples.od_env
    (Cases.detection_adapter Cases.picky_detector)
    ([Examples.od_image] ++ Cases.bad_image :: [Examples.od_image])
    (Some 0.1%Q) = inl RuntimeError.
Proof.
  refine (@detection_stops_at_first_failure Examples.od_env
            (Cases.detection_adapter Cases.picky_detector)
            [Examples.od_image] [Examples.od_image] Cases.bad_image
            0.1%Q RuntimeError _ _).
  - repeat constructor. eexists. vm_compute. reflexivity.
  - vm_compute. reflexivity.
Defined.

(** X4: what [predict] raises on a batch that starts with [image], by the
    order of the steps of the loop body: [NameError] when [ToTensor] is
    unbound, before the model is called; else the exception of the model;
    else [IndexError] when the model returns an empty list; else
    [NameError] when [torchvision] is unbound.  On the empty batch
    [predict] returns the empty list in every environment. *)
Theorem detection_error_precedence
  (env : torch.Imports)
  (self : ObjectDetection.WrappedObjectDetectionModel ObjectDetection.detector)
  (image : np.ndarray) (rest : list np.ndarray) (t : option Q) :
  ObjectDetection.predict env self [] t = inr [] /\
  (torch.ToTensor env = None ->
   ObjectDetection.predict env self (image :: rest) t = inl NameError) /\
  (forall to_tensor e,
      torch.ToTensor env = Some to_tensor ->
      native (ObjectDetection._model self)
        (torch.unsqueeze0
           (torch.to (to_tensor image) (ObjectDetection._device self)))
        = inl e ->
      ObjectDetection.predict env self (image :: rest) t = inl e) /\
  (forall to_tensor,
      torch.ToTensor env = Some to_tensor ->
      native (ObjectDetection._model self)
        (torch.unsqueeze0
           (torch.to (to_tensor image) (ObjectDetection._device self)))
        = inr [] ->
      ObjectDetection.predict env self (image :: rest) t = inl IndexError) /\
  (forall to_tensor d dets,
      torch.ToTensor env = Some to_tensor ->
      native (ObjectDetection._model self)
        (torch.unsqueeze0
           (torch.to (to_tensor image) (ObjectDetection._device self)))
        = inr (d :: dets) ->
      torch.nms env = None ->
      ObjectDetection.predict env self (image :: rest) t = inl NameError).
Proof.
  unfold ObjectDetection.predict.
  split; [reflexivity|]. split; [|split; [|split]].
  - intros H. rewrite for_append_cons.
    unfold ObjectDetection.predict_image. rewrite H. reflexivity.
  - intros to_tensor e H Hn. rewrite for_append_cons.
    unfold ObjectDetection.predict_image. rewrite H. cbn. rewrite Hn.
    reflexivity.
  - intros to_tensor H Hn. rewrite for_append_cons.
    unfold ObjectDetection.predict_image. rewrite H. cbn. rewrite Hn.
    reflexivity.
  - intros to_tensor d dets H Hn Hnms. rewrite for_append_cons.
    unfold ObjectDetection.predict_image. rewrite H. cbn. rewrite Hn. cbn.
    rewrite Hnms. reflexivity.
Qed.

(** Instances: no [ToTensor]; a detector that returns no result; no
    [torchvision]. *)
Lemma detection_error_precedence_witness :
  ObjectDetection.predict Cases.no_ToTensor Examples.od_adapter
    [Examples.od_image] None = inl NameError /\
  ObjectDetection.predict Examples.od_env
    (Cases.detection_adapter Cases.silent_detector)
    [Examples.od_image] None = inl IndexError /\
  ObjectDetection.predict Cases.no_torchvision Examples.od_adapter
    [Examples.od_image] None = inl NameError.
Proof.
  split; [|split].
  - exact (proj1 (proj2 (detection_error_precedence Cases.no_ToTensor
                           Examples.od_adapter Examples.od_image [] None))
             eq_refl).
  - exact (proj1 (proj2 (proj2 (proj2
             (detection_error_precedence Examples.od_env
                (Cases.detection_adapter Cases.silent_detector)
                Examples.od_image [] None))))
             _ eq_refl eq_refl).
  - exact (proj2 (proj2 (proj2 (proj2
             (detection_error_precedence Cases.no_torchvision
                Examples.od_adapter Examples.od_image [] None))))
             _ _ _ eq_refl eq_refl eq_refl).
Defined.

(** X5: the constructor of the detection adapter raises [NameError] when
    [torch] is unbound, whatever the model, and [AttributeError] when the
    model has no [eval]; otherwise the device is [cuda] exactly when
    [torch.cuda.is_available()], the model is in evaluation mode with its
    other attributes untouched, and constructing an adapter for the model
    of the adapter again gives the same adapter. *)
Theorem detection_adapter_construction_rules
  (B : Type) (env : torch.Imports) (model : object B) :
  (torch.torch_bound env = false ->
   ObjectDetection.__init__ env model = inl NameError) /\
  (torch.torch_bound env = true -> has_eval model = false ->
   ObjectDetection.__init__ env model = inl AttributeError) /\
  (torch.torch_bound env = true -> has_eval model = true ->
   exists w,
     ObjectDetection.__init__ env model = inr w /\
     ObjectDetection._device w =
       (if torch.cuda_is_available env then torch.cuda else torch.cpu) /\
     training (ObjectDetection._model w) = false /\
     type_repr (ObjectDetection._model w) = type_repr model /\
     isinstance_nn_Module (ObjectDetection._model w) =
       isinstance_nn_Module model /\
     _model_impl (ObjectDetection._model w) = _model_impl model /\
     native (ObjectDetection._model w) = native model /\
     ObjectDetection.__init__ env (ObjectDetection._model w) = inr w).
Proof.
  unfold ObjectDetection.__init__, Obj.eval.
  split; [|split].
  - intros ->. reflexivity.
  - intros -> ->. reflexivity.
  - intros -> He. rewrite He. cbn. eexists. split; [reflexivity|].
    cbn. repeat split.
Qed.

(** An instance: the detector of the examples, without a GPU. *)
Lemma detection_adapter_construction_rules_witness :
  exists w,
    ObjectDetection.__init__ Examples.od_env Examples.od_model = inr w /\
    ObjectDetection._device w = torch.cpu /\
    training (ObjectDetection._model w) = false /\
    type_repr (ObjectDetection._model w) = type_repr Examples.od_model /\
    isinstance_nn_Module (ObjectDetection._model w) = true /\
    _model_impl (ObjectDetection._model w) = None /\
    native (ObjectDetection._model w) = Examples.od_detector /\
    ObjectDetection.__init__ Examples.od_env (ObjectDetection._model w)
      = inr w.
Proof.
  exact (proj2 (proj2 (detection_adapter_construction_rules
                         Examples.od_env Examples.od_model))
           eq_refl eq_refl).
Defined.

(* ===================================================================== *)
(** * fastai: what the predictions look like                              *)
(* ===================================================================== *)

Lemma promote_not_bool (a b : np.dtype) :
  a <> np.DBool -> np.promote a b <> np.DBool.
Proof. destruct a, b; simpl; congruence. Qed.

Lemma fold_promote_not_bool (l : list np.dtype) (a : np.dtype) :
  a <> np.DBool -> fold_left np.promote l a <> np.DBool.
Proof.
  revert a. induction l as [|b l IH]; intros a Ha; [exact Ha|].
  simpl. apply IH, promote_not_bool, Ha.
Qed.

Section FastAIShape.
Variable self : FastAI.WrappedFastAIImageClassificationModel FastAI.learner.

Lemma fastai_single_shape (dataset out : np.ndarray) (index : nat) :
  FastAI._fastai_predict_single self dataset index = inr out ->
  1 <= np.ndim out /\ (index = 1 -> np.dtype_of out <> np.DBool).
Proof.
  unfold FastAI._fastai_predict_single.
  cbv beta iota delta [bind ret Monad_either].
  destruct (native (FastAI._model self) dataset) as [e|t]; [discriminate|].
  destruct (Py.getitem t index) as [e|p]; [discriminate|].
  destruct (if np.ndim p =? 0 then np.reshape1 p else inr p)
    as [e|q] eqn:Hq; [discriminate|].
  assert (Hdim : 1 <= np.ndim q).
  { destruct (Nat.eqb_spec (np.ndim p) 0) as [H0|H0].
    - unfold np.reshape1 in Hq.
      destruct (np.size_of (np.shape p) =? 1); [|discriminate].
      injection Hq as <-. cbn. lia.
    - injection Hq as <-. lia. }
  intros H. injection H as <-.
  destruct (Nat.eqb_spec index 1) as [->|Hi].
  - destruct (np.dtype_eqb (np.dtype_of q) np.DBool) eqn:Ed.
    + split; [exact Hdim|]. intros _. discriminate.
    + split; [exact Hdim|]. intros _ Hb. rewrite Hb in Ed. discriminate.
  - split; [exact Hdim|]. intros ->. contradiction.
Qed.

(** What [np.array] makes of predictions that are no scalars and not
    boolean. *)
Lemma array_of_predictions (ps : list np.ndarray) (a : np.ndarray) :
  np.array ps = inr a ->
  1 <= np.ndim a /\
  (Forall (fun p => np.dtype_of p <> np.DBool) ps ->
   np.dtype_of a <> np.DBool).
Proof.
  unfold np.array. destruct ps as [|p ps].
  - intros H. injection H as <-. split; [cbn; lia | discriminate].
  - destruct (forallb _ ps); [|discriminate].
    intros H. injection H as <-. split; [cbn; lia|].
    intros Hall. cbn. apply fold_promote_not_bool.
    inversion Hall; assumption.
Qed.

End FastAIShape.

(** X6: whatever the input, an array that the fastai adapter returns has
    at least one axis, and the discrete predictions of [predict] are never
    of boolean type. *)
Theorem fastai_predictions_have_an_axis_and_no_booleans
  (self : FastAI.WrappedFastAIImageClassificationModel FastAI.learner)
  (dataset out : np.ndarray) (index : nat) :
  FastAI._fastai_predict self dataset index = inr out ->
  1 <= np.ndim out /\ (index = 1 -> np.dtype_of out <> np.DBool).
Proof.
  rewrite fastai_predict_equation.
  destruct (Nat.eqb_spec (np.ndim dataset) 4) as [H4|H4].
  - cbn. destruct (np.iter dataset) as [e|rows] eqn:Hit; [discriminate|].
    destruct (for_append _ rows) as [e|ps] eqn:Hps; [discriminate|].
    destruct (np.array ps) as [e|a] eqn:Ha; [discriminate|].
    intros H. injection H as <-.
    destruct (array_of_predictions _ Ha) as [Hdim Hbool].
    assert (Hps' : index = 1 ->
                   Forall (fun p => np.dtype_of p <> np.DBool) ps).
    { intros Hi. apply for_append_Forall2 in Hps.
      destruct (iter_rows _ Hit) as [_ Hrows].
      clear Ha Hbool Hdim Hit. induction Hps as [|r p rows ps Hr _ IH].
      - constructor.
      - inversion Hrows as [|? ? Hr3 Hrest]; subst.
        constructor; [|apply IH; exact Hrest].
        rewrite fastai_not_batch in Hr by (rewrite H4 in Hr3; lia).
        apply (fastai_single_shape _ _ _ Hr). reflexivity. }
    destruct ((index =? 1) && negb (FastAI._multilabel self)).
    + split; [cbn; lia|]. intros Hi. cbn. apply Hbool, Hps', Hi.
    + split; [exact Hdim|]. intros Hi. apply Hbool, Hps', Hi.
  - apply fastai_single_shape.
Qed.

(** An instance: the learner with a boolean mask, on a batch. *)
Lemma fastai_predictions_have_an_axis_and_no_booleans_witness :
  exists out,
    FastAI.predict (Examples.fastai_adapter Examples.mask_learner true)
      (Examples.batch_of 2) = inr out /\
    1 <= np.ndim out /\ (1 = 1 -> np.dtype_of out <> np.DBool).
Proof.
  eexists. split; [vm_compute; reflexivity|].
  apply (fastai_predictions_have_an_axis_and_no_booleans
           (Examples.fastai_adapter Examples.mask_learner true)
           (Examples.batch_of 2) 1).
  vm_compute. reflexivity.
Defined.

Lemma fastai_single_reads_one_entry
  (m1 m2 : object FastAI.learner) (ml1 ml2 : bool) (index : nat)
  (dataset : np.ndarray) :
  (t <- native m1 dataset ;; Py.getitem t index) =
  (t <- native m2 dataset ;; Py.getitem t index) ->
  FastAI._fastai_predict_single (FastAI.__init__ m1 ml1) dataset index =
  FastAI._fastai_predict_single (FastAI.__init__ m2 ml2) dataset index.
Proof.
  unfold FastAI._fastai_predict_single, FastAI.__init__.
  cbv beta iota delta [bind ret Monad_either FastAI._model].
  destruct (native m1 dataset) as [e1|t1], (native m2 dataset) as [e2|t2];
    intros H.
  - exact H.
  - rewrite <- H. reflexivity.
  - rewrite H. reflexivity.
  - rewrite H. reflexivity.
Qed.

(** X7: [predict] reads entry 1 of the tuple that the learner returns and
    nothing else, and [predict_proba] entry 2 and nothing else: two
    learners that agree on that entry for every input get the same
    predictions on every dataset, whatever the other entries are. *)
Theorem fastai_prediction_reads_one_tuple_entry
  (m1 m2 : object FastAI.learner) (multilabel : bool) (index : nat) :
  (forall x,
      (t <- native m1 x ;; Py.getitem t index) =
      (t <- native m2 x ;; Py.getitem t index)) ->
  forall dataset,
    FastAI._fastai_predict (FastAI.__init__ m1 multilabel) dataset index =
    FastAI._fastai_predict (FastAI.__init__ m2 multilabel) dataset index.
Proof.
  intros Hagree dataset. rewrite !fastai_predict_equation.
  destruct (Nat.eqb_spec (np.ndim dataset) 4) as [H4|H4].
  - destruct (np.iter dataset) as [e|rows] eqn:Hit; [reflexivity|].
    cbn [bind Monad_either].
    rewrite (for_append_ext
               (fun row => FastAI._fastai_predict
                             (FastAI.__init__ m1 multilabel) row index)
               (fun row => FastAI._fastai_predict
                             (FastAI.__init__ m2 multilabel) row index));
      [reflexivity|].
    intros row Hrow. destruct (iter_rows _ Hit) as [_ Hdim].
    rewrite Forall_forall in Hdim. specialize (Hdim row Hrow).
    rewrite !fastai_not_batch by lia.
    apply fastai_single_reads_one_entry, Hagree.
  - apply fastai_single_reads_one_entry, Hagree.
Qed.

(** An instance: two learners with equal class indices and different
    labels and probabilities. *)
Lemma fastai_prediction_reads_one_tuple_entry_witness :
  FastAI._fastai_predict
    (FastAI.__init__
       (Examples.some_object "<class 'fastai.learner.Learner'>" false None
          Cases.pixel_learner) false) Cases.two_pixels 1 =
  FastAI._fastai_predict
    (FastAI.__init__
       (Examples.some_object "<class 'fastai.learner.Learner'>" false None
          Cases.pixel_learner') false) Cases.two_pixels 1.
Proof.
  apply (fastai_prediction_reads_one_tuple_entry
           (Examples.some_object "<class 'fastai.learner.Learner'>" false
              None Cases.pixel_learner)
           (Examples.some_object "<class 'fastai.learner.Learner'>" false
              None Cases.pixel_learner') false 1).
  intros x. reflexivity.
Defined.

(** X8: on a 4-dimensional batch of no image the learner is not called:
    [predict] and [predict_proba] return the empty float vector of shape
    (0,), in both modes; the class axis is not kept. *)
Theorem fastai_empty_batch
  (self : FastAI.WrappedFastAIImageClassificationModel FastAI.learner)
  (batch : np.ndarray) (h w c : nat) :
  np.shape batch = [0; h; w; c] ->
  FastAI.predict self batch =
    inr {| np.dtype_of := np.DFloat; np.shape := [0]; np.data := [] |} /\
  FastAI.predict_proba self batch =
    inr {| np.dtype_of := np.DFloat; np.shape := [0]; np.data := [] |}.
Proof.
  intros Hs. unfold FastAI.predict, FastAI.predict_proba.
  rewrite !fastai_predict_equation. unfold np.ndim, np.iter.
  rewrite Hs. cbn. destruct (FastAI._multilabel self); split; reflexivity.
Qed.

(** An instance: the learner with a boolean mask, in multilabel mode. *)
Lemma fastai_empty_batch_witness :
  FastAI.predict (Examples.fastai_adapter Examples.mask_learner true)
    (Examples.batch_of 0) =
    inr {| np.dtype_of := np.DFloat; np.shape := [0]; np.data := [] |} /\
  FastAI.predict_proba (Examples.fastai_adapter Examples.mask_learner true)
    (Examples.batch_of 0) =
    inr {| np.dtype_of := np.DFloat; np.shape := [0]; np.data := [] |}.
Proof.
  apply (fastai_empty_batch
           (Examples.fastai_adapter Examples.mask_learner true)
           (Examples.batch_of 0) (h := 1) (w := 1) (c := 1)).
  reflexivity.
Defined.

Lemma array_of_class_indices {A : Type} (f : A -> Q) (l : list A) :
  l <> [] ->
  np.array
    (map (fun x => {| np.dtype_of := np.DInt; np.shape := [1];
                      np.data := [f x] |}) l) =
  inr {| np.dtype_of := np.DInt; np.shape := [length l; 1];
         np.data := map f l |}.
Proof.
  set (h := fun x => {| np.dtype_of := np.DInt; np.shape := [1];
                        np.data := [f x] |}).
  assert (Hd : forall l', fold_left np.promote (map np.dtype_of (map h l'))
                            np.DInt = np.DInt).
  { induction l' as [|x l' IH]; [reflexivity | exact IH]. }
  assert (Hc : forall l', concat (map np.data (map h l')) = map f l').
  { induction l' as [|x l' IH]; [reflexivity|]. cbn. f_equal. exact IH. }
  destruct l as [|x0 l]; [contradiction|]. intros _.
  unfold np.array. cbn [map].
  replace (forallb _ (map h l)) with true.
  - change (np.dtype_of (h x0)) with np.DInt. rewrite Hd.
    cbn [concat length]. rewrite Hc, length_map. reflexivity.
  - symmetry. apply forallb_forall. intros y Hy.
    apply in_map_iff in Hy. destruct Hy as (x & <- & _). reflexivity.
Qed.

(** X9: in single-label mode, for a learner whose entry 1 is the class
    index as a 0-dimensional integer tensor, [predict] on a batch of
    N >= 1 images is the integer vector of the N class indices, in the
    order of the images. *)
Theorem fastai_single_label_class_vector
  (self : FastAI.WrappedFastAIImageClassificationModel FastAI.learner)
  (batch : np.ndarray) (images : list np.ndarray) (cls : np.ndarray -> Q) :
  FastAI._multilabel self = false ->
  np.ndim batch = 4 ->
  np.iter batch = inr images ->
  images <> [] ->
  (forall image, In image images ->
     exists t,
       native (FastAI._model self) image = inr t /\
       nth_error t 1 =
         Some {| np.dtype_of := np.DInt; np.shape := [];
                 np.data := [cls image] |}) ->
  FastAI.predict self batch =
  inr {| np.dtype_of := np.DInt; np.shape := [length images];
         np.data := map cls images |}.
Proof.
  intros Hml H4 Hit Hne Hcls.
  destruct (fastai_batch_unfolded self batch H4)
    as (images' & Hit' & Hdim & Hp & _).
  rewrite Hit in Hit'. injection Hit' as <-.
  rewrite Hp, Hml.
  rewrite (for_append_map (FastAI.predict self)
             (fun x => {| np.dtype_of := np.DInt; np.shape := [1];
                          np.data := [cls x] |})).
  - cbn [bind Monad_either]. rewrite (array_of_class_indices cls Hne).
    cbn. unfold np.flatten. cbn [np.shape np.data np.dtype_of np.size_of fold_right].
    rewrite Nat.mul_1_r. reflexivity.
  - intros image Hin. rewrite Forall_forall in Hdim.
    unfold FastAI.predict.
    rewrite fastai_not_batch by (rewrite (Hdim image Hin); discriminate).
    destruct (Hcls image Hin) as (t & Ht & Hentry).
    unfold FastAI._fastai_predict_single, Py.getitem.
    rewrite Ht. cbv beta iota delta [bind ret Monad_either].
    rewrite Hentry. reflexivity.
Qed.

(** An instance: two images of one pixel with entries 3 and 5 and the
    learner whose class index is the pixel. *)
Lemma fastai_single_label_class_vector_witness :
  FastAI.predict (Examples.fastai_adapter Cases.pixel_learner false)
    Cases.two_pixels =
  inr {| np.dtype_of := np.DInt; np.shape := [2]; np.data := [3; 5]%Q |}.
Proof.
  refine (fastai_single_label_class_vector
            (Examples.fastai_adapter Cases.pixel_learner false)
            Cases.two_pixels
            (images :=
               [ {| np.dtype_of := np.DFloat; np.shape := [1; 1; 1];
                    np.data := [3%Q] |};
                 {| np.dtype_of := np.DFloat; np.shape := [1; 1; 1];
                    np.data := [5%Q] |} ])
            (fun x => hd 0%Q (np.data x))
            eq_refl eq_refl eq_refl _ _).
  - discriminate.
  - intros image _. eexists. split; reflexivity.
Defined.

(* ===================================================================== *)
(** * The arg-max                                                         *)
(* ===================================================================== *)

Lemma argmax_from_first_greatest (xs pre : list Q) (best : nat) (bv : Q) :
  best < length pre ->
  nth best (pre ++ xs) 0%Q = bv ->
  (forall j, j < length pre -> (nth j (pre ++ xs) 0 <= bv)%Q) ->
  (forall j, j < best -> (nth j (pre ++ xs) 0 < bv)%Q) ->
  first_greatest (pre ++ xs) (np.argmax_from best bv (length pre) xs).
Proof.
  revert pre best bv. induction xs as [|x xs IH]; intros pre best bv Hb Hbv Hle Hlt.
  - cbn [np.argmax_from]. rewrite app_nil_r in *. subst bv.
    split; [exact Hb|]. split; assumption.
  - cbn [np.argmax_from].
    assert (Hx : nth (length pre) (pre ++ x :: xs) 0%Q = x).
    { rewrite app_nth2 by lia. rewrite Nat.sub_diag. reflexivity. }
    assert (Hsplit : pre ++ x :: xs = (pre ++ [x]) ++ xs).
    { rewrite <- app_assoc. reflexivity. }
    assert (Hlen : length (pre ++ [x]) = S (length pre)).
    { rewrite length_app. cbn. lia. }
    destruct (Qle_bool x bv) eqn:E.
    + apply Qle_bool_iff in E.
      rewrite Hsplit, <- Hlen. apply IH.
      * rewrite Hlen. lia.
      * rewrite <- Hsplit. exact Hbv.
      * rewrite <- Hsplit, Hlen. intros j Hj.
        destruct (Nat.eq_dec j (length pre)) as [->|Hne].
        -- rewrite Hx. exact E.
        -- apply Hle. lia.
      * rewrite <- Hsplit. exact Hlt.
    + assert (Hgt : (bv < x)%Q).
      { apply Qnot_le_lt. intros H. apply Qle_bool_iff in H. congruence. }
      rewrite Hsplit, <- Hlen. apply IH.
      * rewrite Hlen. lia.
      * rewrite <- Hsplit. exact Hx.
      * rewrite <- Hsplit, Hlen. intros j Hj.
        destruct (Nat.eq_dec j (length pre)) as [->|Hne].
        -- rewrite Hx. apply Qle_refl.
        -- apply Qlt_le_weak. apply Qle_lt_trans with bv; [|exact Hgt].
           apply Hle. lia.
      * rewrite <- Hsplit. intros j Hj.
        apply Qle_lt_trans with bv; [|exact Hgt]. apply Hle. lia.
Qed.

Lemma argmax_list_first_greatest (l : list Q) (k : nat) :
  np.argmax_list l = inr k -> first_greatest l k.
Proof.
  destruct l as [|x xs]; [discriminate|].
  intros H. injection H as <-.
  apply (argmax_from_first_greatest xs [x]).
  - cbn. lia.
  - reflexivity.
  - intros j Hj. cbn in Hj. assert (j = 0) as -> by lia. apply Qle_refl.
  - intros j Hj. lia.
Qed.

(** X10: for a native result with a [probs] column of non-empty vectors,
    of any shapes, [predict] returns one class per row, in row order, and
    the class of a row is the position of the first greatest entry of its
    vector: within bounds, no entry is greater, every earlier entry is
    smaller.  The classes are integers when the column has a row; for a
    column with no row the result is the empty vector of the dtype of
    the column. *)
Theorem mlflow_predict_is_first_greatest_class
  (self : Mlflow.WrappedMlflowAutomlImagesClassificationModel Mlflow.pyfunc)
  (dataset frame : pd.DataFrame) (cells : list np.ndarray) :
  native (Mlflow._model self) dataset = inr frame ->
  pd.lookup frame "probs" = Some cells ->
  Forall (fun c => np.data c <> []) cells ->
  exists ks out,
    Mlflow.predict self dataset = inr out /\
    np.shape out = [length cells] /\
    np.data out = map np.of_nat ks /\
    (cells <> [] -> np.dtype_of out = np.DInt) /\
    (cells = [] ->
     exists col, pd.column frame "probs" = Some col /\
                 np.dtype_of out = pd.dtype col) /\
    Forall2 (fun c k => first_greatest (np.data c) k) cells ks.
Proof.
  intros Hnative Hcol Hne.
  destruct (for_append_returns (fun x => np.argmax x) (l := cells))
    as [ks Hks].
  { eapply Forall_impl; [|exact Hne]. intros c Hc.
    apply argmax_returns, Hc. }
  destruct (lookup_column _ _ Hcol) as (col & Hc & Hv).
  pose proof (for_append_length _ _ Hks) as Hlen.
  exists ks.
  exists {| np.dtype_of := match ks with
                           | [] => pd.dtype col
                           | _ :: _ => np.DInt
                           end;
            np.shape := [length ks];
            np.data := map np.of_nat ks |}.
  split; [|split; [|split; [|split; [|split]]]].
  - unfold Mlflow.predict, Mlflow._mlflow_predict, pd.loc_column,
      pd.map_values.
    cbv beta iota delta [bind ret Monad_either].
    rewrite Hnative, Hc, Hv, Hks. reflexivity.
  - cbn [np.shape]. rewrite Hlen. reflexivity.
  - reflexivity.
  - intros Hrows. cbn [np.dtype_of].
    destruct ks as [|k ks]; [|reflexivity].
    destruct cells; [contradiction|discriminate].
  - intros ->. exists col. split; [exact Hc|].
    destruct ks as [|k ks]; [reflexivity|discriminate].
  - apply for_append_Forall2 in Hks.
    eapply Forall2_impl; [|exact Hks].
    intros c k Hk. apply argmax_list_first_greatest. exact Hk.
Qed.

(** Instances: two vectors of different lengths, and a column with no
    row, of dtype [float64]. *)
Lemma mlflow_predict_is_first_greatest_class_witness :
  (exists ks out,
      Mlflow.predict (Examples.mlflow_adapter_returning Cases.ragged_frame)
        Examples.images_frame = inr out /\
      np.shape out = [2] /\
      np.data out = map np.of_nat ks /\
      np.dtype_of out = np.DInt /\
      Forall2 (fun c k => first_greatest (np.data c) k)
        [Examples.vec np.DFloat [0.1; 0.9]%Q;
         Examples.vec np.DFloat [0.2; 0.5; 0.3]%Q] ks) /\
  (exists out,
      Mlflow.predict
        (Examples.mlflow_adapter_returning Examples.empty_probs_frame)
        Examples.empty_images_frame = inr out /\
      np.shape out = [0] /\
      np.dtype_of out = np.DFloat).
Proof.
  split.
  - destruct (mlflow_predict_is_first_greatest_class
                (Examples.mlflow_adapter_returning Cases.ragged_frame)
                Examples.images_frame (frame := Cases.ragged_frame)
                (cells := [Examples.vec np.DFloat [0.1; 0.9]%Q;
                           Examples.vec np.DFloat [0.2; 0.5; 0.3]%Q])
                eq_refl eq_refl)
      as (ks & out & Hp & Hs & Hd & Hint & _ & Hfirst).
    + repeat constructor; discriminate.
    + exists ks, out. repeat split; try assumption.
      apply Hint. discriminate.
  - destruct (mlflow_predict_is_first_greatest_class
                (Examples.mlflow_adapter_returning Examples.empty_probs_frame)
                Examples.empty_images_frame
                (frame := Examples.empty_probs_frame) (cells := [])
                eq_refl eq_refl (Forall_nil _))
      as (ks & out & Hp & Hs & _ & _ & Hkeep & _).
    exists out. split; [exact Hp|]. split; [exact Hs|].
    destruct (Hkeep eq_refl) as (col & Hcol & ->).
    injection Hcol as <-. reflexivity.
Defined.

(* ===================================================================== *)
(** * MLflow and transformer: errors and consistency                      *)
(* ===================================================================== *)

Lemma shape_eqb_eq (s t : list nat) : np.shape_eqb s t = true -> s = t.
Proof.
  unfold np.shape_eqb. intros H. apply andb_prop in H.
  destruct H as [Hlen Hall]. apply Nat.eqb_eq in Hlen.
  revert t Hlen Hall. induction s as [|a s IH]; intros [|b t] Hlen Hall;
    try discriminate; [reflexivity|].
  cbn in Hall. apply andb_prop in Hall. destruct Hall as [Hab Hall].
  apply Nat.eqb_eq in Hab. subst b. f_equal.
  apply IH; [cbn in Hlen; lia | exact Hall].
Qed.

(** A loop whose body can raise only [e] and raises on some element
    raises [e]. *)
Lemma for_append_raises {A B : Type} (f : A -> result B) (l : list A)
  (e : exn) (x : A) :
  In x l -> f x = inl e ->
  (forall y e', f y = inl e' -> e' = e) ->
  for_append f l = inl e.
Proof.
  intros Hin Hx Honly. induction l as [|y l IH]; [contradiction|].
  rewrite for_append_cons.
  destruct (f y) as [e'|v] eqn:Hy.
  - rewrite (Honly y e' Hy). reflexivity.
  - destruct Hin as [->|Hin]; [congruence|].
    rewrite (IH Hin). reflexivity.
Qed.

(** X11: the errors of the MLflow adapter.  An exception of the native
    [predict] reaches the caller of both operations.  When the result has
    no [probs] column, [predict] raises [KeyError] and [predict_proba]
    raises [AttributeError].  When two vectors of the column have
    different shapes, [predict_proba] raises [ValueError]; when a vector
    is empty, [predict] raises [ValueError]. *)
Theorem mlflow_errors
  (self : Mlflow.WrappedMlflowAutomlImagesClassificationModel Mlflow.pyfunc)
  (dataset : pd.DataFrame) :
  (forall e,
      native (Mlflow._model self) dataset = inl e ->
      Mlflow.predict self dataset = inl e /\
      Mlflow.predict_proba self dataset = inl e) /\
  (forall frame,
      native (Mlflow._model self) dataset = inr frame ->
      pd.lookup frame "probs" = None ->
      Mlflow.predict self dataset = inl KeyError /\
      Mlflow.predict_proba self dataset = inl AttributeError) /\
  (forall frame c0 cs c,
      native (Mlflow._model self) dataset = inr frame ->
      pd.lookup frame "probs" = Some (c0 :: cs) ->
      In c cs -> np.shape c <> np.shape c0 ->
      Mlflow.predict_proba self dataset = inl ValueError) /\
  (forall frame cells c,
      native (Mlflow._model self) dataset = inr frame ->
      pd.lookup frame "probs" = Some cells ->
      In c cells -> np.data c = [] ->
      Mlflow.predict self dataset = inl ValueError).
Proof.
  unfold Mlflow.predict, Mlflow.predict_proba, Mlflow._mlflow_predict,
    pd.loc_column, pd.getattr_column, pd.map_values.
  split; [|split; [|split]].
  - intros e ->. split; reflexivity.
  - intros frame -> Hcol. apply lookup_no_column in Hcol.
    cbn. rewrite Hcol. split; reflexivity.
  - intros frame c0 cs c -> Hcol Hin Hshape.
    destruct (lookup_column _ _ Hcol) as (col & Hc & Hv).
    cbn. rewrite Hc. cbn. rewrite Hv. cbn.
    replace (forallb (fun y => np.shape_eqb (np.shape y) (np.shape c0)) cs)
      with false; [reflexivity|].
    symmetry. apply not_true_is_false. intros Hall.
    rewrite forallb_forall in Hall. apply Hshape, shape_eqb_eq, Hall, Hin.
  - intros frame cells c -> Hcol Hin Hdata.
    destruct (lookup_column _ _ Hcol) as (col & Hc & Hv).
    cbn. rewrite Hc. cbn. rewrite Hv.
    rewrite (for_append_raises (fun x => np.argmax x) cells (e := ValueError)
               c Hin); [reflexivity| |].
    + unfold np.argmax. rewrite Hdata. reflexivity.
    + intros y e'. unfold np.argmax, np.argmax_list.
      destruct (np.data y); intros H; inversion H; reflexivity.
Qed.

(** Instances: a native [predict] that raises, a result without [probs]
    column, and vectors of two lengths. *)
Lemma mlflow_errors_witness :
  (Mlflow.predict (Cases.failing_pyfunc RuntimeError) Examples.images_frame
     = inl RuntimeError /\
   Mlflow.predict_proba (Cases.failing_pyfunc RuntimeError)
     Examples.images_frame = inl RuntimeError) /\
  (Mlflow.predict (Examples.mlflow_adapter_returning Examples.images_frame)
     Examples.images_frame = inl KeyError /\
   Mlflow.predict_proba
     (Examples.mlflow_adapter_returning Examples.images_frame)
     Examples.images_frame = inl AttributeError) /\
  Mlflow.predict_proba (Examples.mlflow_adapter_returning Cases.ragged_frame)
    Examples.images_frame = inl ValueError.
Proof.
  split; [|split].
  - exact (proj1 (mlflow_errors (Cases.failing_pyfunc RuntimeError)
                    Examples.images_frame) RuntimeError eq_refl).
  - exact (proj1 (proj2 (mlflow_errors
                           (Examples.mlflow_adapter_returning
                              Examples.images_frame)
                           Examples.images_frame))
             Examples.images_frame eq_refl eq_refl).
  - refine (proj1 (proj2 (proj2 (mlflow_errors
                           (Examples.mlflow_adapter_returning
                              Cases.ragged_frame)
                           Examples.images_frame)))
              Cases.ragged_frame _ _
              (Examples.vec np.DFloat [0.2; 0.5; 0.3]%Q)
              eq_refl eq_refl _ _).
    + left. reflexivity.
    + discriminate.
Defined.

Lemma for_append_then {A B C : Type} (g : A -> result B) (h : B -> C)
  (l : list A) :
  for_append (fun x => k <- g x ;; ret (h k)) l =
  (ks <- for_append g l ;; ret (map h ks)).
Proof.
  induction l as [|x l IH]; [reflexivity|].
  rewrite !for_append_cons, IH. cbn.
  destruct (g x) as [e|k]; [reflexivity|].
  destruct (for_append g l) as [e|ks]; reflexivity.
Qed.

(** The [c] entries from position [o] on. *)
Lemma window_of_entries (l : list Q) (o c : nat) :
  o + c <= length l ->
  map (fun i => nth (o + i) l 0%Q) (seq 0 c) = firstn c (skipn o l).
Proof.
  intros H. apply (nth_ext _ _ 0%Q 0%Q).
  - rewrite length_map, length_seq, length_firstn, length_skipn. lia.
  - rewrite length_map, length_seq. intros j Hj.
    rewrite nth_firstn, nth_skipn.
    apply Nat.ltb_lt in Hj as Hj'. rewrite Hj'.
    rewrite (nth_indep _ 0%Q ((fun i => nth (o + i) l 0%Q) 0))
      by (rewrite length_map, length_seq; exact Hj).
    rewrite (map_nth (fun i => nth (o + i) l 0%Q)), seq_nth by exact Hj.
    reflexivity.
Qed.

(** X12: for a well-formed raw output of shape (n, c) with c >= 1,
    [predict] returns a vector of n classes, and class [i] is the position
    of the first greatest entry of row [i] of what [predict_proba]
    returns. *)
Theorem transformer_predict_is_first_greatest_of_proba_row
  (dataset : Type)
  (self : Transformer.WrappedTransformerImageClassificationModel
            (Transformer.call dataset))
  (ds : dataset) (raw : np.ndarray) (n c : nat) :
  native (Transformer._model self) ds = inr raw ->
  np.shape raw = [n; c] ->
  c <> 0 ->
  np.well_formed raw ->
  exists ks,
    Transformer.predict_proba self ds = inr raw /\
    Transformer.predict self ds =
      inr {| np.dtype_of := np.DInt; np.shape := [n];
             np.data := map np.of_nat ks |} /\
    length ks = n /\
    forall i k, nth_error ks i = Some k ->
      exists row,
        np.getitem raw i = inr row /\
        np.shape row = [c] /\
        first_greatest (np.data row) k.
Proof.
  intros Hnative Hshape Hc Hwf.
  unfold np.well_formed in Hwf. rewrite Hshape in Hwf.
  cbn [np.size_of fold_right] in Hwf. rewrite Nat.mul_1_r in Hwf.
  set (g := fun o => np.argmax_list (firstn c (skipn (o * c) (np.data raw)))).
  assert (Hext : forall o, In o (seq 0 n) ->
             np.argmax_list
               (map (fun i => nth (o * c + i) (np.data raw) 0%Q) (seq 0 c))
             = g o).
  { intros o Ho. apply in_seq in Ho. unfold g.
    rewrite window_of_entries; [reflexivity|]. nia. }
  destruct (for_append_returns g (l := seq 0 n)) as [ks Hks].
  { apply Forall_forall. intros o Ho. apply in_seq in Ho. unfold g.
    destruct (firstn c (skipn (o * c) (np.data raw))) as [|x xs] eqn:E.
    - exfalso. apply (f_equal (@length Q)) in E.
      rewrite length_firstn, length_skipn in E. cbn in E. nia.
    - eexists. reflexivity. }
  exists ks.
  unfold Transformer.predict_proba, Transformer.predict.
  rewrite Hnative. split; [reflexivity|]. cbn [bind Monad_either].
  split; [|split].
  - rewrite argmax_axis1_of_matrix
      by (unfold np.ndim; rewrite Hshape; reflexivity).
    unfold np.argmax_last_axis. rewrite Hshape.
    cbn [rev app np.size_of fold_right].
    destruct (Nat.eqb_spec c 0) as [|_]; [contradiction|].
    rewrite Nat.mul_1_r.
    rewrite (for_append_ext _
               (fun o => k <- g o ;; ret (np.of_nat k))).
    + rewrite for_append_then, Hks. reflexivity.
    + intros o Ho. rewrite (Hext o Ho). reflexivity.
  - rewrite (for_append_length _ _ Hks), length_seq. reflexivity.
  - intros i k Hi.
    apply for_append_Forall2 in Hks as Hrel.
    assert (Hlt : i < n).
    { apply for_append_length in Hks. rewrite length_seq in Hks.
      rewrite <- Hks. apply nth_error_Some. congruence. }
    assert (Hgi : g i = inr k).
    { clear -Hrel Hi Hlt.
      assert (Hseq : nth_error (seq 0 n) i = Some i).
      { rewrite nth_error_nth' with (d := 0) by (rewrite length_seq; lia).
        rewrite seq_nth by lia. reflexivity. }
      destruct (Forall2_nth_error_left i Hrel Hseq) as (k' & Hk' & Hg).
      congruence. }
    exists (np.row raw [c] i). split; [|split].
    + unfold np.getitem. rewrite Hshape.
      apply Nat.ltb_lt in Hlt. rewrite Hlt. reflexivity.
    + reflexivity.
    + apply argmax_list_first_greatest. unfold np.row. cbn [np.data].
      cbn [np.size_of fold_right]. rewrite Nat.mul_1_r. exact Hgi.
Qed.

(** An instance: raw scores of two images over three classes. *)
Lemma transformer_predict_is_first_greatest_of_proba_row_witness :
  exists ks,
    Transformer.predict_proba (Examples.transformer_adapter Examples.raw_2d)
      (Examples.batch_of 2) = inr Examples.raw_2d /\
    Transformer.predict (Examples.transformer_adapter Examples.raw_2d)
      (Examples.batch_of 2) =
      inr {| np.dtype_of := np.DInt; np.shape := [2];
             np.data := map np.of_nat ks |} /\
    length ks = 2 /\
    forall i k, nth_error ks i = Some k ->
      exists row,
        np.getitem Examples.raw_2d i = inr row /\
        np.shape row = [3] /\
        first_greatest (np.data row) k.
Proof.
  refine (transformer_predict_is_first_greatest_of_proba_row
            (Examples.transformer_adapter Examples.raw_2d)
            (Examples.batch_of 2) (raw := Examples.raw_2d) (n := 2) (c := 3)
            eq_refl eq_refl _ eq_refl).
  discriminate.
Defined.

(** X13: the errors of the transformer adapter.  An exception of the
    native call reaches the caller of both operations.  For a raw output
    with fewer than two axes [predict] raises [AxisError], and for one
    whose axis 1 has length 0 it raises [ValueError]; [predict_proba]
    returns the raw output in both cases. *)
Theorem transformer_errors
  (dataset : Type)
  (self : Transformer.WrappedTransformerImageClassificationModel
            (Transformer.call dataset))
  (ds : dataset) :
  (forall e,
      native (Transformer._model self) ds = inl e ->
      Transformer.predict self ds = inl e /\
      Transformer.predict_proba self ds = inl e) /\
  (forall raw,
      native (Transformer._model self) ds = inr raw ->
      np.ndim raw < 2 ->
      Transformer.predict self ds = inl AxisError /\
      Transformer.predict_proba self ds = inr raw) /\
  (forall raw n rest,
      native (Transformer._model self) ds = inr raw ->
      np.shape raw = n :: 0 :: rest ->
      Transformer.predict self ds = inl ValueError /\
      Transformer.predict_proba self ds = inr raw).
Proof.
  unfold Transformer.predict, Transformer.predict_proba.
  split; [|split].
  - intros e ->. split; reflexivity.
  - intros raw -> Hdim. split; [|reflexivity]. cbn.
    unfold np.argmax_axis1, np.ndim in *.
    destruct (np.shape raw) as [|d0 [|d1 rest]]; [reflexivity..|].
    cbn in Hdim. lia.
  - intros raw n rest -> Hs. split; [|reflexivity]. cbn.
    unfold np.argmax_axis1. rewrite Hs. reflexivity.
Qed.

(** An instance: a raw output that is one vector of scores. *)
Lemma transformer_errors_witness :
  Transformer.predict (Examples.transformer_adapter Cases.raw_1d)
    (Examples.batch_of 1) = inl AxisError /\
  Transformer.predict_proba (Examples.transformer_adapter Cases.raw_1d)
    (Examples.batch_of 1) = inr Cases.raw_1d.
Proof.
  refine (proj1 (proj2 (transformer_errors
                          (Examples.transformer_adapter Cases.raw_1d)
                          (Examples.batch_of 1)))
            Cases.raw_1d eq_refl _).
  cbn. lia.
Defined.

(* ===================================================================== *)
(** * The factory: the framework-native path and the type tests           *)
(* ===================================================================== *)

Section FactoryPaths.
Variables B raw_examples dataset_wrapper eval_function : Type.
Variable env : torch.Imports.
Variable pkg : Factory.Package B raw_examples dataset_wrapper eval_function.
Variable model : object B.
Variable examples : Factory.examples_t raw_examples dataset_wrapper.
Variable is_function : bool.

(** What the statements after the [try] statement return never changes
    the task. *)
Lemma try_pytorch_return (v : Factory.wrapped B * Factory.ModelTask) :
  snd (Factory.try_pytorch env pkg model examples
         Factory.IMAGE_CLASSIFICATION) = inr (Some v) ->
  torch.torch_bound env = true /\
  isinstance_nn_Module model = true /\
  exists m' d f c,
    Factory.WrappedPytorchModel pkg model true = inr m' /\
    Factory._eval_model pkg m' d Factory.IMAGE_CLASSIFICATION
      = inr (f, snd v) /\
    Factory.WrappedClassificationModel pkg m' f d = inr c /\
    fst v = Factory.Plain c.
Proof.
  unfold Factory.try_pytorch.
  destruct (torch.torch_bound env); [|discriminate].
  destruct (isinstance_nn_Module model); [|discriminate].
  destruct (Factory.WrappedPytorchModel pkg model true) as [e|m'];
    [discriminate|].
  cbv beta iota delta [snd bind ret Monad_either].
  intros H. split; [reflexivity|]. split; [reflexivity|]. exists m'.
  destruct examples as [d|x];
    [|destruct (Factory.DatasetWrapper pkg x) as [e|d]; [discriminate|]];
    (destruct (Factory._eval_model pkg m' d Factory.IMAGE_CLASSIFICATION)
       as [e|[f dom]] eqn:He; [discriminate|]);
    (destruct (Factory.WrappedClassificationModel pkg m' f d) as [e|c] eqn:Hc;
       [discriminate|]);
    injection H as <-; exists d, f, c; repeat split; assumption.
Qed.

End FactoryPaths.

(** X14: the task that the factory returns is the task it was given,
    unless it was single-label image classification and the
    framework-native path returned: then it is the domain that
    [_eval_model] resolved for the [WrappedPytorchModel], and the model
    returned is the [WrappedClassificationModel] built around it. *)
Theorem factory_returns_given_task_or_probed_domain
  (B raw_examples dataset_wrapper eval_function : Type)
  (env : torch.Imports)
  (pkg : Factory.Package B raw_examples dataset_wrapper eval_function)
  (model : object B)
  (examples : Factory.examples_t raw_examples dataset_wrapper)
  (task : Factory.ModelTask) (is_function : bool)
  (w : Factory.wrapped B) (t : Factory.ModelTask) :
  Factory._wrap_image_model env pkg model examples task is_function
    = inr (w, t) ->
  t = task \/
  (task = Factory.IMAGE_CLASSIFICATION /\
   torch.torch_bound env = true /\
   isinstance_nn_Module model = true /\
   exists m' d f c,
     Factory.WrappedPytorchModel pkg model true = inr m' /\
     Factory._eval_model pkg m' d Factory.IMAGE_CLASSIFICATION
       = inr (f, t) /\
     Factory.WrappedClassificationModel pkg m' f d = inr c /\
     w = Factory.Plain c).
Proof.
  unfold Factory._wrap_image_model.
  destruct task as [| | |name].
  - destruct (Factory.try_pytorch env pkg model examples
                Factory.IMAGE_CLASSIFICATION) as [m outcome] eqn:Htry.
    assert (Hsnd : snd (Factory.try_pytorch env pkg model examples
                          Factory.IMAGE_CLASSIFICATION) = outcome)
      by (rewrite Htry; reflexivity).
    destruct outcome as [e|[v|]].
    + destruct e; cbn;
        try discriminate;
        destruct (Factory.classify (Factory.Plain model) m) as [e'|a];
        try discriminate;
        intros H; injection H as <- <-; left; reflexivity.
    + intros H. injection H as ->. right.
      destruct (@try_pytorch_return _ _ _ _ env pkg model examples _ Hsnd)
        as (Ht & Hm & m' & d & f & c & H1 & H2 & H3 & H4).
      cbn [fst snd] in H2, H4.
      split; [reflexivity|]. split; [exact Ht|]. split; [exact Hm|].
      exists m', d, f, c. repeat split; assumption.
    + cbn. destruct (Factory.classify (Factory.Plain model) m) as [e'|a];
        [discriminate|].
      intros H. injection H as <- <-. left. reflexivity.
  - destruct (Factory._is_fastai_model model);
      intros H; injection H as <- <-; left; reflexivity.
  - cbv beta iota delta [bind ret Monad_either].
    destruct (ObjectDetection.__init__ env model) as [e|a];
      [discriminate|].
    intros H. injection H as <- <-. left. reflexivity.
  - intros H. injection H as <- <-. left. reflexivity.
Qed.

(** An instance: a [torch] module, with a probe that resolves the task. *)
Lemma factory_returns_given_task_or_probed_domain_witness :
  Factory.OtherTask "image_classification_probabilities"
    = Factory.IMAGE_CLASSIFICATION \/
  (Factory.IMAGE_CLASSIFICATION = Factory.IMAGE_CLASSIFICATION /\
   torch.torch_bound Examples.od_env = true /\
   isinstance_nn_Module Cases.torch_module = true /\
   exists m' d f c,
     Factory.WrappedPytorchModel Cases.working_package Cases.torch_module
       true = inr m' /\
     Factory._eval_model Cases.working_package m' d
       Factory.IMAGE_CLASSIFICATION
       = inr (f, Factory.OtherTask "image_classification_probabilities") /\
     Factory.WrappedClassificationModel Cases.working_package m' f d
       = inr c /\
     Factory.Plain
       (Examples.some_object
          "<class 'ml_wrappers.model.wrapped_classification_model.WrappedClassificationModel'>"
          false None tt) = Factory.Plain c).
Proof.
  apply (factory_returns_given_task_or_probed_domain
           Examples.od_env Cases.working_package Cases.torch_module
           (Factory.NotDatasetWrapper unit tt)
           Factory.IMAGE_CLASSIFICATION false).
  reflexivity.
Defined.

(** X15: the framework-native path.  For single-label image
    classification with [nn] bound and a model that is an [nn.Module],
    when the collaborators return, the factory returns the
    [WrappedClassificationModel] and the domain resolved by the probe.
    The probe and that class receive the [WrappedPytorchModel], built with
    [image_to_tensor=True]; examples that are a [DatasetWrapper] already
    are not wrapped again; the type text and [_model_impl] of the model are
    not looked at. *)
Theorem factory_native_path
  (B raw_examples dataset_wrapper eval_function : Type)
  (env : torch.Imports)
  (pkg : Factory.Package B raw_examples dataset_wrapper eval_function)
  (model m' c : object B)
  (examples : Factory.examples_t raw_examples dataset_wrapper)
  (d : dataset_wrapper) (f : eval_function) (domain : Factory.ModelTask)
  (is_function : bool) :
  torch.torch_bound env = true ->
  isinstance_nn_Module model = true ->
  Factory.WrappedPytorchModel pkg model true = inr m' ->
  (examples = Factory.IsDatasetWrapper raw_examples d \/
   exists x, examples = Factory.NotDatasetWrapper dataset_wrapper x /\
             Factory.DatasetWrapper pkg x = inr d) ->
  Factory._eval_model pkg m' d Factory.IMAGE_CLASSIFICATION
    = inr (f, domain) ->
  Factory.WrappedClassificationModel pkg m' f d = inr c ->
  Factory._wrap_image_model env pkg model examples
    Factory.IMAGE_CLASSIFICATION is_function = inr (Factory.Plain c, domain).
Proof.
  intros Ht Hm Hw Hex He Hc.
  unfold Factory._wrap_image_model, Factory.try_pytorch.
  rewrite Ht, Hm, Hw.
  destruct Hex as [->|(x & -> & Hd)]; cbn; [|rewrite Hd; cbn];
    rewrite He; cbn; rewrite Hc; reflexivity.
Qed.

(** An instance: a [torch] module whose type text is of no interest. *)
Lemma factory_native_path_witness :
  Factory._wrap_image_model Examples.od_env Cases.working_package
    Cases.torch_module (Factory.NotDatasetWrapper unit tt)
    Factory.IMAGE_CLASSIFICATION false =
  inr (Factory.Plain
         (Examples.some_object
            "<class 'ml_wrappers.model.wrapped_classification_model.WrappedClassificationModel'>"
            false None tt),
       Factory.OtherTask "image_classification_probabilities").
Proof.
  refine (@factory_native_path unit unit unit unit
            Examples.od_env Cases.working_package Cases.torch_module
            _ _ (Factory.NotDatasetWrapper unit tt) tt tt _ false
            eq_refl eq_refl eq_refl _ eq_refl eq_refl).
  right. exists tt. split; reflexivity.
Defined.

(** X16: an exception of the framework-native path that is neither
    [NameError] nor [AttributeError] is not caught: the factory raises it
    and tries no other adapter. *)
Theorem factory_probe_exception_propagates
  (B raw_examples dataset_wrapper eval_function : Type)
  (env : torch.Imports)
  (pkg : Factory.Package B raw_examples dataset_wrapper eval_function)
  (model : object B)
  (examples : Factory.examples_t raw_examples dataset_wrapper)
  (is_function : bool) (e : exn) :
  snd (Factory.try_pytorch env pkg model examples
         Factory.IMAGE_CLASSIFICATION) = inl e ->
  e <> NameError ->
  e <> AttributeError ->
  Factory._wrap_image_model env pkg model examples
    Factory.IMAGE_CLASSIFICATION is_function = inl e.
Proof.
  unfold Factory._wrap_image_model.
  destruct (Factory.try_pytorch env pkg model examples
              Factory.IMAGE_CLASSIFICATION) as [m outcome].
  cbn [snd]. intros -> Hn Ha.
  destruct e; try reflexivity; contradiction.
Qed.

(** An instance: a probe that raises [ValueError] on a fastai-named
    [nn.Module]. *)
Lemma factory_probe_exception_propagates_witness :
  Factory._wrap_image_model Examples.od_env Cases.value_error_package
    Examples.native_fastai_model (Factory.NotDatasetWrapper unit tt)
    Factory.IMAGE_CLASSIFICATION false = inl ValueError.
Proof.
  apply (factory_probe_exception_propagates
           Examples.od_env Cases.value_error_package
           Examples.native_fastai_model (Factory.NotDatasetWrapper unit tt)
           false (e := ValueError)).
  - reflexivity.
  - discriminate.
  - discriminate.
Defined.

(** X17: a model whose type text ends in the fastai suffix, on which the
    framework-native path does not apply, gets the fastai adapter around
    the model itself: in single-label mode for single-label image
    classification, in multilabel mode for multi-label image
    classification.  The attribute [_model_impl] is not looked at, so a
    missing [python_model] raises nothing. *)
Theorem factory_fastai_model
  (B raw_examples dataset_wrapper eval_function : Type)
  (env : torch.Imports)
  (pkg : Factory.Package B raw_examples dataset_wrapper eval_function)
  (model : object B)
  (examples : Factory.examples_t raw_examples dataset_wrapper)
  (is_function : bool) :
  Factory._is_fastai_model model = true ->
  torch.torch_bound env = false \/ isinstance_nn_Module model = false ->
  Factory._wrap_image_model env pkg model examples
    Factory.IMAGE_CLASSIFICATION is_function =
  inr (Factory.FastAIAdapter (FastAI.__init__ model false),
       Factory.IMAGE_CLASSIFICATION) /\
  Factory._wrap_image_model env pkg model examples
    Factory.MULTILABEL_IMAGE_CLASSIFICATION is_function =
  inr (Factory.FastAIAdapter (FastAI.__init__ model true),
       Factory.MULTILABEL_IMAGE_CLASSIFICATION).
Proof.
  intros Hfast Hpath. split.
  - rewrite (@native_path_not_taken _ _ _ _ env pkg model examples
               is_function).
    + unfold Factory.classify. rewrite Hfast. reflexivity.
    + destruct Hpath as [H|H]; auto.
  - unfold Factory._wrap_image_model. rewrite Hfast. reflexivity.
Qed.

(** An instance: a fastai learner that has [_model_impl] without
    [python_model]. *)
Lemma factory_fastai_model_witness :
  Factory._wrap_image_model Examples.od_env Examples.failing_probe
    Cases.fastai_with_impl (Factory.NotDatasetWrapper unit tt)
    Factory.IMAGE_CLASSIFICATION false =
  inr (Factory.FastAIAdapter (FastAI.__init__ Cases.fastai_with_impl false),
       Factory.IMAGE_CLASSIFICATION) /\
  Factory._wrap_image_model Examples.od_env Examples.failing_probe
    Cases.fastai_with_impl (Factory.NotDatasetWrapper unit tt)
    Factory.MULTILABEL_IMAGE_CLASSIFICATION false =
  inr (Factory.FastAIAdapter (FastAI.__init__ Cases.fastai_with_impl true),
       Factory.MULTILABEL_IMAGE_CLASSIFICATION).
Proof.
  apply (factory_fastai_model Examples.od_env Examples.failing_probe
           Cases.fastai_with_impl (Factory.NotDatasetWrapper unit tt) false).
  - reflexivity.
  - right. reflexivity.
Defined.

(** X18: an MLflow model whose [python_model] is the AutoML-vision
    wrapper, on which the framework-native path does not apply and whose
    own type text lacks the fastai suffix, gets the MLflow adapter around
    the model itself for single-label image classification, and is
    returned as it is for multi-label image classification. *)
Theorem factory_automl_model
  (B raw_examples dataset_wrapper eval_function : Type)
  (env : torch.Imports)
  (pkg : Factory.Package B raw_examples dataset_wrapper eval_function)
  (model : object B)
  (examples : Factory.examples_t raw_examples dataset_wrapper)
  (is_function : bool) :
  is_automl_vision model = true ->
  Factory._is_fastai_model model = false ->
  torch.torch_bound env = false \/ isinstance_nn_Module model = false ->
  Factory._wrap_image_model env pkg model examples
    Factory.IMAGE_CLASSIFICATION is_function =
  inr (Factory.MlflowAdapter (Mlflow.__init__ model),
       Factory.IMAGE_CLASSIFICATION) /\
  Factory._wrap_image_model env pkg model examples
    Factory.MULTILABEL_IMAGE_CLASSIFICATION is_function =
  inr (Factory.Plain model, Factory.MULTILABEL_IMAGE_CLASSIFICATION).
Proof.
  intros Hauto Hfast Hpath. split.
  - rewrite (@native_path_not_taken _ _ _ _ env pkg model examples
               is_function).
    + unfold Factory.classify. rewrite Hfast.
      unfold is_automl_vision in Hauto.
      destruct (_model_impl model) as [impl|]; [|discriminate].
      destruct (python_model_type impl) as [ty|]; [|discriminate].
      rewrite Hauto. reflexivity.
    + destruct Hpath as [H|H]; auto.
  - unfold Factory._wrap_image_model. rewrite Hfast. reflexivity.
Qed.

(** An instance: the AutoML-vision model of the examples. *)
Lemma factory_automl_model_witness :
  Factory._wrap_image_model Examples.od_env Examples.failing_probe
    Cases.automl_model (Factory.NotDatasetWrapper unit tt)
    Factory.IMAGE_CLASSIFICATION false =
  inr (Factory.MlflowAdapter (Mlflow.__init__ Cases.automl_model),
       Factory.IMAGE_CLASSIFICATION) /\
  Factory._wrap_image_model Examples.od_env Examples.failing_probe
    Cases.automl_model (Factory.NotDatasetWrapper unit tt)
    Factory.MULTILABEL_IMAGE_CLASSIFICATION false =
  inr (Factory.Plain Cases.automl_model,
       Factory.MULTILABEL_IMAGE_CLASSIFICATION).
Proof.
  apply (factory_automl_model Examples.od_env Examples.failing_probe
           Cases.automl_model (Factory.NotDatasetWrapper unit tt) false).
  - reflexivity.
  - reflexivity.
  - right. reflexivity.
Defined.

(* ===================================================================== *)
(** * The fastai test is a test of the end of a text                      *)
(* ===================================================================== *)

Lemma string_length_append (s t : string) :
  String.length (s ++ t)%string = String.length s + String.length t.
Proof. induction s as [|c s IH]; [reflexivity|]. cbn. rewrite IH. reflexivity. Qed.

Lemma substring_whole (s : string) : substring 0 (String.length s) s = s.
Proof. induction s as [|c s IH]; [reflexivity|]. cbn. rewrite IH. reflexivity. Qed.

Lemma substring_after_prefix (pre s : string) (m : nat) :
  substring (String.length pre) m (pre ++ s)%string = substring 0 m s.
Proof. induction pre as [|c pre IH]; [reflexivity|]. cbn. exact IH. Qed.

Lemma substring_split (s : string) (a : nat) :
  a <= String.length s ->
  s = (substring 0 a s ++ substring a (String.length s - a) s)%string.
Proof.
  revert a. induction s as [|c s IH]; intros a Ha.
  - destruct a; [reflexivity|]. cbn in Ha. lia.
  - destruct a as [|a].
    + cbn [substring]. change (String.length (String c s) - 0)
        with (S (String.length s)).
      cbn. rewrite substring_whole. reflexivity.
    + cbn in Ha. cbn. f_equal. apply IH. lia.
Qed.

Lemma endswith_iff (s suffix : string) :
  endswith s suffix = true <->
  exists prefix, s = (prefix ++ suffix)%string.
Proof.
  unfold endswith. split.
  - intros H. apply andb_prop in H. destruct H as [Hle Heq].
    apply Nat.leb_le in Hle. apply String.eqb_eq in Heq.
    exists (substring 0 (String.length s - String.length suffix) s).
    rewrite <- Heq at 2.
    rewrite (@substring_split s (String.length s - String.length suffix))
      at 1 by lia.
    do 2 f_equal. lia.
  - intros (prefix & ->). rewrite string_length_append.
    apply andb_true_intro. split.
    + apply Nat.leb_le. lia.
    + apply String.eqb_eq.
      replace (String.length prefix + String.length suffix
               - String.length suffix) with (String.length prefix) by lia.
      rewrite substring_after_prefix. apply substring_whole.
Qed.

(** X19: [_is_fastai_model] holds exactly for the objects whose type text
    is some text followed by [fastai.learner.Learner'>]; nothing else of
    the object is looked at. *)
Theorem is_fastai_model_iff_type_text_ends_in_suffix
  (B : Type) (model : object B) :
  Factory._is_fastai_model model = true <->
  exists prefix,
    type_repr model = (prefix ++ "fastai.learner.Learner'>")%string.
Proof. unfold Factory._is_fastai_model. apply endswith_iff. Qed.

(* ===================================================================== *)
(** * fastai: the matrix of probabilities                                 *)
(* ===================================================================== *)

Lemma array_of_one_shape (ps : list np.ndarray) (s : list nat) :
  ps <> [] ->
  Forall (fun p => np.shape p = s) ps ->
  exists a,
    np.array ps = inr a /\
    np.shape a = length ps :: s /\
    np.data a = concat (map np.data ps).
Proof.
  destruct ps as [|p ps]; [contradiction|]. intros _ Hall.
  unfold np.array.
  replace (forallb (fun y => np.shape_eqb (np.shape y) (np.shape p)) ps)
    with true.
  - eexists. split; [reflexivity|]. cbn [np.shape np.data].
    inversion Hall as [|? ? Hp _]; subst. split; reflexivity.
  - symmetry. apply forallb_forall. intros y Hy.
    rewrite Forall_forall in Hall.
    rewrite (Hall y (or_intror Hy)), (Hall p (or_introl eq_refl)).
    apply shape_eqb_refl.
Qed.

(** X20: for a learner whose entry 2 is, for every image of the batch, an
    array of one shape [s] with at least one axis, [predict_proba] on a
    4-dimensional batch of N >= 1 images returns, in either mode, an array
    of shape N :: s whose entries are the entries of the per-image arrays,
    image after image. *)
Theorem fastai_probabilities_matrix
  (self : FastAI.WrappedFastAIImageClassificationModel FastAI.learner)
  (batch : np.ndarray) (images : list np.ndarray)
  (probs : np.ndarray -> np.ndarray) (s : list nat) :
  np.ndim batch = 4 ->
  np.iter batch = inr images ->
  images <> [] ->
  s <> [] ->
  (forall image, In image images ->
     np.shape (probs image) = s /\
     exists t,
       native (FastAI._model self) image = inr t /\
       nth_error t 2 = Some (probs image)) ->
  exists out,
    FastAI.predict_proba self batch = inr out /\
    np.shape out = length images :: s /\
    np.data out = concat (map (fun image => np.data (probs image)) images).
Proof.
  intros H4 Hit Hne Hs Hprobs.
  destruct (fastai_batch_unfolded self batch H4)
    as (images' & Hit' & Hdim & _ & Hpp).
  rewrite Hit in Hit'. injection Hit' as <-.
  assert (Hps : for_append (FastAI.predict_proba self) images
                = inr (map probs images)).
  { apply for_append_map. intros image Hin.
    rewrite Forall_forall in Hdim. unfold FastAI.predict_proba.
    rewrite fastai_not_batch by (rewrite (Hdim image Hin); discriminate).
    destruct (Hprobs image Hin) as (Hshape & t & Ht & Hentry).
    unfold FastAI._fastai_predict_single, Py.getitem.
    rewrite Ht. cbv beta iota delta [bind ret Monad_either].
    rewrite Hentry.
    replace (np.ndim (probs image) =? 0) with false; [reflexivity|].
    symmetry. apply Nat.eqb_neq. unfold np.ndim. rewrite Hshape.
    destruct s; [contradiction | discriminate]. }
  destruct (array_of_one_shape (ps := map probs images) (s := s))
    as (a & Ha & Hsa & Hda).
  - destruct images; [contradiction | discriminate].
  - apply Forall_map, Forall_forall. intros image Hin.
    apply (Hprobs image Hin).
  - exists a. rewrite Hpp, Hps. cbn [bind Monad_either]. rewrite Ha.
    split; [reflexivity|]. rewrite Hsa, Hda, length_map, map_map.
    split; reflexivity.
Qed.

(** An instance: two images and the single-label learner of the
    examples. *)
Lemma fastai_probabilities_matrix_witness :
  exists out,
    FastAI.predict_proba
      (Examples.fastai_adapter Examples.scalar_learner false)
      Cases.two_pixels = inr out /\
    np.shape out = [2; 2] /\
    np.data out = [0.3; 0.7; 0.3; 0.7]%Q.
Proof.
  refine (fastai_probabilities_matrix
            (Examples.fastai_adapter Examples.scalar_learner false)
            Cases.two_pixels
            (images :=
               [ {| np.dtype_of := np.DFloat; np.shape := [1; 1; 1];
                    np.data := [3%Q] |};
                 {| np.dtype_of := np.DFloat; np.shape := [1; 1; 1];
                    np.data := [5%Q] |} ])
            (fun _ => Examples.vec np.DFloat [0.3; 0.7]%Q)
            (s := [2]) eq_refl eq_refl _ _ _).
  - discriminate.
  - discriminate.
  - intros image _. split; [reflexivity|]. eexists. split; reflexivity.
Defined.
